(** * create-react-express-app: the scaffolding CLI of [src/create-app.js]

    The program is one commander action.  It checks that the target
    directory does not exist, creates it, shells out to npm, writes five
    template files and rewrites two keys of [package.json].

    The development embeds
    - the JavaScript string primitives the action and the generated files
      use ([trim], [replace] with a literal pattern, [join]);
    - JSON documents and property assignment on plain objects;
    - the [files] object literal, line by line;
    - the action itself, in a state-and-outcome monad over an interface of
      the Node collaborators ([fs-extra], [child_process], [path],
      [console], [process]);
    - small readers for the generated texts (HTML tags, the proxy block of
      the bundler configuration, the port constants). *)

From Stdlib Require Import String Ascii List ZArith Lia Bool.
From stdpp Require Import base option gmap strings.
Import ListNotations.
Local Open Scope string_scope.

Set Default Proof Using "Type".

(* ================================================================== *)
(** ** JavaScript strings *)
(* ================================================================== *)

Module JsString.

(** Strings are byte strings; every literal of the program is ASCII. *)

Definition nl : string := String "010"%char EmptyString.
Definition dq : string := String "034"%char EmptyString.

(** [q s] is [s] between double quotes, as in an HTML attribute. *)
Definition q (s : string) : string := dq ++ s ++ dq.

(** A template literal, given by its source lines: the lines are joined
    by line feeds (the source file uses LF line ends). *)
Definition template (lines : list string) : string := String.concat nl lines.

(** [Array.prototype.join]. *)
Definition join (sep : string) (xs : list string) : string := String.concat sep xs.

(** White space of [String.prototype.trim], restricted to ASCII:
    TAB, LF, VT, FF, CR and SPACE. *)
Definition is_space (c : ascii) : bool :=
  let n := nat_of_ascii c in
  ((9 <=? n)%nat && (n <=? 13)%nat) || (n =? 32)%nat.

Fixpoint trimStart (s : string) : string :=
  match s with
  | EmptyString => EmptyString
  | String c s' => if is_space c then trimStart s' else s
  end.

Fixpoint trimEnd (s : string) : string :=
  match s with
  | EmptyString => EmptyString
  | String c s' =>
      match trimEnd s' with
      | EmptyString => if is_space c then EmptyString else String c EmptyString
      | t => String c t
      end
  end.

(** [String.prototype.trim]. *)
Definition trim (s : string) : string := trimEnd (trimStart s).

(** [skip n s]: [s] without its first [n] characters ([s.slice(n)]). *)
Fixpoint skip (n : nat) (s : string) : string :=
  match n, s with
  | O, _ => s
  | S _, EmptyString => EmptyString
  | S n', String _ s' => skip n' s'
  end.

(** [s.replace(/pat/, rep)] for a pattern [pat] made of ordinary
    characters and a replacement [rep] without [$]: the leftmost
    occurrence of [pat] is replaced, the rest of [s] is kept; without an
    occurrence [s] is returned as it is. The regular expression has no
    [g] flag, so at most one occurrence is replaced. *)
Fixpoint replace_first (pat rep s : string) : string :=
  if String.prefix pat s then rep ++ skip (String.length pat) s
  else match s with
       | EmptyString => EmptyString
       | String c s' => String c (replace_first pat rep s')
       end.

(** [s.startsWith(p)]. *)
Definition startsWith (p s : string) : bool := String.prefix p s.

(** The text of [s] after the leftmost occurrence of [marker]. *)
Fixpoint after (marker s : string) : option string :=
  if String.prefix marker s then Some (skip (String.length marker) s)
  else match s with
       | EmptyString => None
       | String _ s' => after marker s'
       end.

(** The text of [s] before the leftmost occurrence of [marker]. *)
Fixpoint before (marker s : string) : option string :=
  if String.prefix marker s then Some EmptyString
  else match s with
       | EmptyString => None
       | String c s' => option_map (String c) (before marker s')
       end.

(** Number of positions of [s] at which [pat] occurs. *)
Fixpoint occurrences (pat s : string) : nat :=
  match s with
  | EmptyString => 0
  | String _ s' =>
      (if String.prefix pat s then 1 else 0) + occurrences pat s'
  end.

Definition is_digit (c : ascii) : bool :=
  let n := nat_of_ascii c in (48 <=? n)%nat && (n <=? 57)%nat.

(** The decimal number a string starts with, if it starts with a digit. *)
Fixpoint leading_digits (s : string) (acc : Z) : Z :=
  match s with
  | String c s' =>
      if is_digit c
      then leading_digits s' (10 * acc + Z.of_nat (nat_of_ascii c - 48))
      else acc
  | EmptyString => acc
  end.

Definition leading_number (s : string) : option Z :=
  match s with
  | String c _ => if is_digit c then Some (leading_digits s 0) else None
  | EmptyString => None
  end.

End JsString.

Import JsString.

(* ================================================================== *)
(** ** The [files] object literal (lines 39 to 118) *)
(* ================================================================== *)

Module Templates.

(** Each template literal opens with a line feed right after the back
    quote and closes with a line of six spaces before the closing back
    quote; none interpolates an expression. *)

Definition server_js : string := template
  [ EmptyString
  ; "import express from 'express';"
  ; "import { join } from 'path';"
  ; EmptyString
  ; "const app = express();"
  ; "const PORT = process.env.PORT || 3000;"
  ; EmptyString
  ; "// Serve static files from the dist directory in production"
  ; "if (process.env.NODE_ENV === 'production') {"
  ; "  app.use(express.static(join(process.cwd(), 'dist')));"
  ; EmptyString
  ; "  app.get('*', (req, res) => {"
  ; "    res.sendFile(join(process.cwd(), 'dist', 'index.html'));"
  ; "  });"
  ; "} else {"
  ; "  console.log('In development mode. Use Vite for the frontend.');"
  ; "}"
  ; EmptyString
  ; "app.listen(PORT, () => {"
  ; "  console.log('Server is running on http://localhost:'+PORT);"
  ; "});"
  ; "      " ].

Definition vite_config_js : string := template
  [ EmptyString
  ; "import { defineConfig } from 'vite';"
  ; "import react from '@vitejs/plugin-react';"
  ; EmptyString
  ; "export default defineConfig({"
  ; "  plugins: [react()],"
  ; "  build: {"
  ; "    outDir: 'dist',"
  ; "    sourcemap: true,"
  ; "  },"
  ; "  server: {"
  ; "    proxy: {"
  ; "      '/api': {"
  ; "        target: 'http://localhost:3000',"
  ; "        changeOrigin: true,"
  ; "        rewrite: (path) => path.replace(/api/, ''),"
  ; "      },"
  ; "    },"
  ; "  },"
  ; "});"
  ; "      " ].

Definition index_html : string := template
  [ EmptyString
  ; "<!doctype html>"
  ; "<html lang=" ++ q "en" ++ ">"
  ; "  <head>"
  ; "    <meta charset=" ++ q "UTF-8" ++ " />"
  ; "    <link rel=" ++ q "icon" ++ " type=" ++ q "image/svg+xml"
      ++ " href=" ++ q "/vite.svg" ++ " />"
  ; "    <meta name=" ++ q "viewport" ++ " content="
      ++ q "width=device-width, initial-scale=1.0" ++ " />"
  ; "    <title>Vite + React</title>"
  ; "  </head>"
  ; "  <body>"
  ; "    <div id=" ++ q "root" ++ "></div>"
  ; "    <script type=" ++ q "module" ++ " src=" ++ q "/src/index.jsx"
      ++ "></script>"
  ; "  </body>"
  ; "</html>"
  ; "      " ].

Definition index_jsx : string := template
  [ EmptyString
  ; "import { StrictMode } from 'react'"
  ; "import { createRoot } from 'react-dom/client'"
  ; "import App from './App.jsx'"
  ; EmptyString
  ; "createRoot(document.getElementById('root')).render("
  ; "  <StrictMode>"
  ; "    <App />"
  ; "  </StrictMode>,"
  ; ");"
  ; "      " ].

Definition App_jsx : string := template
  [ EmptyString
  ; "import React from 'react';"
  ; EmptyString
  ; "const App = () => {"
  ; "  return <h1>Hello, Vite + React!</h1>;"
  ; "};"
  ; EmptyString
  ; "export default App;"
  ; "      " ].

(** [const files = { ... }].  An object whose keys are not array indices
    enumerates them in the order they were written, so the literal is
    the list of its properties in source order. *)
Definition files : list (string * string) :=
  [ ("server.js", server_js)
  ; ("vite.config.js", vite_config_js)
  ; ("index.html", index_html)
  ; ("src/index.jsx", index_jsx)
  ; ("src/App.jsx", App_jsx) ].

End Templates.


(* ================================================================== *)
(** ** JSON documents and plain objects *)
(* ================================================================== *)

Module Json.

(** A JSON value as [fs.readJsonSync] returns it and [fs.writeJsonSync]
    takes it.  The properties of an object are kept in enumeration
    order, which is the order [JSON.stringify] writes them in. Numbers
    are never inspected by the program; integers stand for them. *)
#[warnings="-register-all"]
Inductive JValue : Type :=
| JNull
| JBool (b : bool)
| JNum (n : Z)
| JStr (s : string)
| JArr (items : list JValue)
| JObj (props : list (string * JValue)).

Definition JObject : Type := list (string * JValue).

(** [o[k]] on own properties; [None] is [undefined]. *)
Fixpoint get (k : string) (o : JObject) : option JValue :=
  match o with
  | [] => None
  | (k', v) :: o' => if String.eqb k' k then Some v else get k o'
  end.

(** [o[k] = v] on a plain object, for a key [k] that is not an array
    index: an own property [k] keeps its place and takes the value [v];
    otherwise the property is created after all the others. *)
Fixpoint set (k : string) (v : JValue) (o : JObject) : JObject :=
  match o with
  | [] => [(k, v)]
  | (k', v') :: o' =>
      if String.eqb k' k then (k, v) :: o' else (k', v') :: set k v o'
  end.

(** [Object.keys]. *)
Definition keys (o : JObject) : list string := map fst o.

(** [doc[k] = v] in strict mode (an ES module) on whatever
    [readJsonSync] returned.  On [null] and on a primitive the
    assignment throws a [TypeError] ([None]).  On an array it creates a
    named property, which [JSON.stringify] does not write: the document
    is the same array. *)
Definition assign (k : string) (v : JValue) (doc : JValue) : option JValue :=
  match doc with
  | JObj props => Some (JObj (set k v props))
  | JArr items => Some (JArr items)
  | JNull | JBool _ | JNum _ | JStr _ => None
  end.

End Json.

Import Json.

(* ================================================================== *)
(** ** The Node collaborators *)
(* ================================================================== *)

Module Node.

Inductive Color : Type := red | green | blue | yellow.

(** What [chalk.<color>(text)] returns, as [console.log] receives it. *)
Definition Styled : Type := (Color * string)%type.
Definition chalk (c : Color) (text : string) : Styled := (c, text).

(** Calls to [fs-extra] and [child_process], with their arguments. *)
Inductive Call : Type :=
| ExistsSync (p : string)
| MkdirSync (p : string) (recursive : bool)
| ExecSync (cmd cwd : string)
| OutputFileSync (p content : string)
| ReadJsonSync (p : string)
| WriteJsonSync (p : string) (doc : JValue) (spaces : nat).

(** The contents handed to [outputFileSync], in call order. *)
Definition written (cs : list Call) : list string :=
  omap (fun c => match c with
                 | OutputFileSync _ content => Some content
                 | _ => None
                 end) cs.

(** A call that changes nothing on disk and starts no process. *)
Definition is_query (c : Call) : bool :=
  match c with
  | ExistsSync _ | ReadJsonSync _ => true
  | _ => false
  end.

(** The collaborators, over a type [W] of worlds (file system, npm
    registry, ...).  A call that throws still returns the world it
    leaves behind: nothing is rolled back. *)
Class Env (W : Type) : Type := {
  process_cwd : W -> string;
  path_join : string -> string -> string;
  fs_existsSync : string -> W -> bool;
  fs_mkdirSync : string -> bool -> W -> bool * W;
  child_execSync : string -> string -> W -> bool * W;
  fs_outputFileSync : string -> string -> W -> bool * W;
  fs_readJsonSync : string -> W -> option JValue;
  fs_writeJsonSync : string -> JValue -> nat -> W -> bool * W;
}.

Inductive Error : Type :=
| Raised (by_call : Call)     (* a collaborator threw *)
| TypeError (stmt : string).  (* the runtime threw at this statement *)

(** How a run ends: the function returns, [process.exit] is called, or
    an exception leaves the action. *)
Inductive Outcome (A : Type) : Type :=
| Returned (a : A)
| Exited (code : Z)
| Threw (e : Error).
Arguments Returned {A} a.
Arguments Exited {A} code.
Arguments Threw {A} e.

Record State (W : Type) : Type := mkState {
  world : W;
  console : list Styled;   (* lines printed by console.log *)
  calls : list Call;       (* collaborator calls made so far *)
}.
Arguments mkState {W}.
Arguments world {W}.
Arguments console {W}.
Arguments calls {W}.

Definition Run (W A : Type) : Type := State W -> Outcome A * State W.

#[export] Instance Run_ret {W} : MRet (Run W) :=
  fun A a s => (Returned a, s).

#[export] Instance Run_bind {W} : MBind (Run W) :=
  fun A B k m s =>
    match m s with
    | (Returned a, s') => k a s'
    | (Exited code, s') => (Exited code, s')
    | (Threw e, s') => (Threw e, s')
    end.

Section Primitives.
Context {W : Type} `{Env W}.

Definition log_call (c : Call) (s : State W) : State W :=
  mkState (world s) (console s) (calls s ++ [c])%list.

Definition console_log (line : Styled) : Run W unit :=
  fun s => (Returned tt, mkState (world s) (console s ++ [line])%list (calls s)).

Definition process_exit {A} (code : Z) : Run W A :=
  fun s => (Exited code, s).

Definition cwd : Run W string :=
  fun s => (Returned (process_cwd (world s)), s).

Definition existsSync (p : string) : Run W bool :=
  fun s => (Returned (fs_existsSync p (world s)), log_call (ExistsSync p) s).

(** A mutating call: the call is recorded, the world is replaced by the
    one the collaborator leaves, and a failure is thrown. *)
Definition mutate (c : Call) (f : W -> bool * W) : Run W unit :=
  fun s =>
    let '(ok, w') := f (world s) in
    let s' := mkState w' (console s) (calls s ++ [c])%list in
    if ok then (Returned tt, s') else (Threw (Raised c), s').

Definition mkdirSync (p : string) (recursive : bool) : Run W unit :=
  mutate (MkdirSync p recursive) (fs_mkdirSync p recursive).

Definition execSync (cmd dir : string) : Run W unit :=
  mutate (ExecSync cmd dir) (child_execSync cmd dir).

Definition outputFileSync (p content : string) : Run W unit :=
  mutate (OutputFileSync p content) (fs_outputFileSync p content).

Definition writeJsonSync (p : string) (doc : JValue) (spaces : nat) : Run W unit :=
  mutate (WriteJsonSync p doc spaces) (fs_writeJsonSync p doc spaces).

Definition readJsonSync (p : string) : Run W JValue :=
  fun s =>
    let s' := log_call (ReadJsonSync p) s in
    match fs_readJsonSync p (world s) with
    | Some doc => (Returned doc, s')
    | None => (Threw (Raised (ReadJsonSync p)), s')
    end.

(** [doc[k] = v;] as a statement. *)
Definition assign_stmt (stmt k : string) (v : JValue) (doc : JValue) : Run W JValue :=
  fun s =>
    match assign k v doc with
    | Some doc' => (Returned doc', s)
    | None => (Threw (TypeError stmt), s)
    end.

(** [for (const x of xs) body(x)]. *)
Fixpoint for_of {A} (xs : list A) (body : A -> Run W unit) : Run W unit :=
  match xs with
  | [] => mret tt
  | x :: xs' => body x ;; for_of xs' body
  end.

(** A computation that never calls [process.exit]. *)
Definition never_exits {A} (m : Run W A) : Prop :=
  forall s code s', m s <> (Exited code, s').

(** The calls of [s'] that were made after [s]. *)
Definition calls_since (s s' : State W) : list Call :=
  skipn (length (calls s)) (calls s').

End Primitives.

End Node.

Import Node.

(* ================================================================== *)
(** ** The action (lines 15 to 143) *)
(* ================================================================== *)

Module CreateApp.

Definition dependencies : list string := ["react"; "react-dom"; "express"].
Definition devDependencies : list string := ["vite"; "@vitejs/plugin-react"].

(** The object assigned to [packageJson.scripts] (lines 132 to 136). *)
Definition scripts : JObject :=
  [ ("dev", JStr "vite")
  ; ("build", JStr "vite build")
  ; ("start", JStr "NODE_ENV=production node server.js") ].

(** Step 4 between the read and the write (lines 131 to 136), on a
    plain object. *)
Definition update_packageJson (packageJson : JObject) : JObject :=
  set "scripts" (JObj scripts) (set "type" (JStr "module") packageJson).

Section Action.
Context {W : Type} `{Env W}.

Definition action (appName : string) : Run W unit :=
  here ← cwd;
  let appPath := path_join here appName in

  exists_ ← existsSync appPath;
  (if exists_ : bool then
     console_log (chalk red ("Directory " ++ appName ++ " already exists."));;
     process_exit 1
   else mret tt);;

  console_log (chalk green ("Creating project in " ++ appPath ++ "..."));;
  mkdirSync appPath false;;

  (* Step 1: Initialize npm project *)
  console_log (chalk blue "Initializing npm project...");;
  execSync "npm init -y" appPath;;

  (* Step 2: Install dependencies *)
  console_log (chalk blue "Installing dependencies...");;
  execSync ("npm install " ++ join " " dependencies) appPath;;
  execSync ("npm install --save-dev " ++ join " " devDependencies) appPath;;

  (* Step 3: Set up project structure *)
  console_log (chalk blue "Setting up project structure...");;
  let files := Templates.files in
  mkdirSync (path_join appPath "src") true;;
  for_of files (fun '(filePath, content) =>
    let fullPath := path_join appPath filePath in
    outputFileSync fullPath (trim content));;

  (* Step 4: Add scripts to package.json *)
  console_log (chalk blue "Updating package.json...");;
  let packageJsonPath := path_join appPath "package.json" in
  packageJson ← readJsonSync packageJsonPath;
  packageJson ← assign_stmt "packageJson.type = 'module'"
                  "type" (JStr "module") packageJson;
  packageJson ← assign_stmt "packageJson.scripts = {...}"
                  "scripts" (JObj scripts) packageJson;
  writeJsonSync packageJsonPath packageJson 2;;

  console_log (chalk green "Project created successfully!");;
  console_log (chalk blue "Run the following commands to get started:");;
  console_log (chalk yellow ("cd " ++ appName));;
  console_log (chalk yellow "npm run dev").

End Action.

End CreateApp.

Import CreateApp.

(* ================================================================== *)
(** ** The generator, as the specification names it *)
(* ================================================================== *)

Module Generator.

(** The source has no function [generate]: the specification gives that
    name to the two pure parts of the action, the [files] literal as it
    is written out (path, [content.trim()]) and the assignments of step
    4.  [appName] is in scope of both and used by neither. *)

Definition ScaffoldEntry : Type := (string * string)%type.

Definition entries : list ScaffoldEntry :=
  map (fun '(filePath, content) => (filePath, trim content)) Templates.files.

(** The key overwrites of step 4, in the order they are made. *)
Definition ManifestPatch : Type := list (string * JValue).

Definition manifestPatch : ManifestPatch :=
  [ ("type", JStr "module"); ("scripts", JObj scripts) ].

Definition generate (appName : string) : list ScaffoldEntry * ManifestPatch :=
  (entries, manifestPatch).

(** Applying a patch: one property assignment per overwrite. *)
Definition apply_patch (patch : ManifestPatch) (m : JObject) : JObject :=
  fold_left (fun o '(k, v) => set k v o) patch m.

(** The content generated for a relative path. *)
Definition content_of (appName filePath : string) : option string :=
  option_map snd
    (find (fun e => String.eqb (fst e) filePath) (fst (generate appName))).

(** The keys the patch does not write. *)
Definition untouched (k : string) : bool :=
  negb (String.eqb k "type") && negb (String.eqb k "scripts").

Definition preserved (m : JObject) : JObject :=
  List.filter (fun kv => untouched (fst kv)) m.

End Generator.

Import Generator.

(* ================================================================== *)
(** ** Readers of the generated texts *)
(* ================================================================== *)

Module Html.

(** A start tag: its name and its attributes, values unquoted. *)
Record Tag : Type := mkTag {
  tag_name : string;
  tag_attrs : list (string * string);
}.

Inductive Mode : Type := InText | InTag | InValue.

Definition snoc (s : string) (c : ascii) : string := s ++ String c EmptyString.

(** The texts between [<] and the next [>] that is not inside a double
    quoted attribute value. *)
Fixpoint tag_texts (mode : Mode) (cur : string) (s : string) : list string :=
  match s with
  | EmptyString => []
  | String c s' =>
      match mode with
      | InText =>
          if Ascii.eqb c "<" then tag_texts InTag EmptyString s'
          else tag_texts InText EmptyString s'
      | InTag =>
          if Ascii.eqb c ">" then cur :: tag_texts InText EmptyString s'
          else if Ascii.eqb c "034" then tag_texts InValue (snoc cur c) s'
          else tag_texts InTag (snoc cur c) s'
      | InValue =>
          if Ascii.eqb c "034" then tag_texts InTag (snoc cur c) s'
          else tag_texts InValue (snoc cur c) s'
      end
  end.

Definition flush (cur : string) (rest : list string) : list string :=
  match cur with EmptyString => rest | _ => cur :: rest end.

(** The words of a tag text: split at white space outside quotes. *)
Fixpoint words (quoted : bool) (cur : string) (s : string) : list string :=
  match s with
  | EmptyString => flush cur []
  | String c s' =>
      if quoted then words (negb (Ascii.eqb c "034")) (snoc cur c) s'
      else if is_space c then flush cur (words false EmptyString s')
      else words (Ascii.eqb c "034") (snoc cur c) s'
  end.

(** [unquote] removes one pair of enclosing double quotes. *)
Definition unquote (v : string) : string :=
  match v with
  | String c v' =>
      if Ascii.eqb c "034" then
        match before dq v' with Some inner => inner | None => v end
      else v
  | EmptyString => v
  end.

(** [name="value"], or a bare [name]. *)
Definition attribute (w : string) : option (string * string) :=
  if String.eqb w "/" then None
  else match before "=" w, after "=" w with
       | Some k, Some v => Some (k, unquote v)
       | _, _ => Some (w, EmptyString)
       end.

(** End tags, the doctype and comments are not start tags. *)
Definition is_start (text : string) : bool :=
  match text with
  | String c _ => negb (Ascii.eqb c "/") && negb (Ascii.eqb c "!")
  | EmptyString => false
  end.

Definition parse_tag (text : string) : option Tag :=
  if is_start text then
    match words false EmptyString text with
    | name :: ws => Some (mkTag name (omap attribute ws))
    | [] => None
    end
  else None.

(** The start tags of a document, in document order: one per element. *)
Definition elements (doc : string) : list Tag :=
  omap parse_tag (tag_texts InText EmptyString doc).

Definition attr (k : string) (t : Tag) : option string :=
  option_map snd (find (fun kv => String.eqb (fst kv) k) (tag_attrs t)).

Definition has_attr (k v : string) (t : Tag) : bool :=
  match attr k t with Some v' => String.eqb v' v | None => false end.

Definition is_module_script (t : Tag) : bool :=
  String.eqb (tag_name t) "script" && has_attr "type" "module" t.

End Html.

Module ViteConfig.

Definition sq : ascii := "'"%char.

(** The property names of an object literal, read from the text that
    follows its opening brace: the single-quoted strings at the top
    level of the block that a colon follows. *)
Fixpoint block_keys (depth : nat) (in_string : bool) (cur : string)
    (s : string) : list string :=
  match s with
  | EmptyString => []
  | String c s' =>
      if in_string then
        if Ascii.eqb c sq then
          let rest := block_keys depth false EmptyString s' in
          match depth with
          | O => if String.prefix ":" s' then cur :: rest else rest
          | S _ => rest
          end
        else block_keys depth true (Html.snoc cur c) s'
      else if Ascii.eqb c sq then block_keys depth true EmptyString s'
      else if Ascii.eqb c "{" then block_keys (S depth) false EmptyString s'
      else if Ascii.eqb c "}" then
        match depth with
        | O => []
        | S d => block_keys d false EmptyString s'
        end
      else block_keys depth false EmptyString s'
  end.

(** The path prefixes of the rules in [server.proxy]. *)
Definition proxy_prefixes (config : string) : list string :=
  match after "proxy: {" config with
  | Some body => block_keys 0 false EmptyString body
  | None => []
  end.

(** The body of the arrow function [rewrite: (path) => ...,]. *)
Definition rewrite_source (config : string) : option string :=
  match after "rewrite: (path) => " config with
  | Some s => before ("," ++ nl) s
  | None => None
  end.

Definition is_letter (c : ascii) : bool :=
  let n := nat_of_ascii c in
  ((65 <=? n)%nat && (n <=? 90)%nat) || ((97 <=? n)%nat && (n <=? 122)%nat).

Fixpoint all_chars (p : ascii -> bool) (s : string) : bool :=
  match s with
  | EmptyString => true
  | String c s' => p c && all_chars p s'
  end.

(** An expression [path.replace(/pat/, 'rep')] whose pattern is made of
    letters and whose replacement has no [$]: its pattern and its
    replacement. *)
Definition parse_replace (src : string) : option (string * string) :=
  match after "path.replace(/" src with
  | Some r =>
      match before "/, '" r, after "/, '" r with
      | Some pat, Some r' =>
          match before "')" r' with
          | Some rep =>
              if String.eqb r' (rep ++ "')")
                 && all_chars is_letter pat
                 && all_chars (fun c => negb (Ascii.eqb c "$")) rep
              then Some (pat, rep) else None
          | None => None
          end
      | _, _ => None
      end
  | None => None
  end.

(** The value of such an expression at [path]. *)
Definition eval_rewrite (src path : string) : option string :=
  match parse_replace src with
  | Some (pat, rep) => Some (replace_first pat rep path)
  | None => None
  end.

(** Line 77, [(path) => path.replace(/api/, '')], as a function. *)
Definition rewrite (path : string) : string :=
  replace_first "api" EmptyString path.

(** The port of [target: 'http://localhost:<port>']. *)
Definition proxy_target_port (config : string) : option Z :=
  match after "target: 'http://localhost:" config with
  | Some s => leading_number s
  | None => None
  end.

End ViteConfig.

Module Server.

(** The right operand of [const PORT = process.env.PORT || <n>;]. *)
Definition default_port (server : string) : option Z :=
  match after "const PORT = process.env.PORT || " server with
  | Some s => leading_number s
  | None => None
  end.

Inductive Port : Type :=
| FromEnv (value : string)
| Default (n : Z).

(** [process.env.PORT || n]: the variable when it is set and not the
    empty string, which is falsy; [n] otherwise. *)
Definition PORT (env_PORT : option string) (n : Z) : Port :=
  match env_PORT with
  | Some EmptyString | None => Default n
  | Some value => FromEnv value
  end.

(** The port the generated server listens on. *)
Definition listen_port (server : string) (env_PORT : option string) : option Port :=
  option_map (PORT env_PORT) (default_port server).

End Server.

(* ================================================================== *)
(** ** An in-memory world *)
(* ================================================================== *)

Module MemFs.

(** A world to run the action in: a working directory and a map from
    absolute paths to nodes.  JSON files are kept parsed.  Paths are
    joined with a slash and not normalised; [npm install] succeeds and
    is not followed into [node_modules]. *)

Inductive Node : Type :=
| Dir
| File (text : string)
| JsonFile (doc : JValue).

Record World : Type := mkWorld {
  wd : string;
  nodes : gmap string Node;
}.

Definition join2 (a b : string) : string := a ++ "/" ++ b.

Definition exists_at (p : string) (w : World) : bool :=
  match nodes w !! p with Some _ => true | None => false end.

Definition put (p : string) (n : Node) (w : World) : World :=
  mkWorld (wd w) (<[p := n]> (nodes w)).

(** [fs.mkdirSync(p)] throws on an existing path, unless [recursive]
    is set and the path is a directory. *)
Definition mkdir (p : string) (recursive : bool) (w : World) : bool * World :=
  match nodes w !! p with
  | None => (true, put p Dir w)
  | Some Dir => (recursive, w)
  | Some _ => (false, w)
  end.

(** The last segment of a path. *)
Fixpoint basename_from (cur : string) (p : string) : string :=
  match p with
  | EmptyString => cur
  | String c p' =>
      if Ascii.eqb c "/" then basename_from EmptyString p'
      else basename_from (Html.snoc cur c) p'
  end.
Definition basename (p : string) : string := basename_from EmptyString p.

(** The manifest [npm init -y] writes in directory [dir]. *)
Definition npm_init_manifest (dir : string) : JObject :=
  [ ("name", JStr (basename dir))
  ; ("version", JStr "1.0.0")
  ; ("description", JStr EmptyString)
  ; ("main", JStr "index.js")
  ; ("scripts",
     JObj [("test", JStr ("echo " ++ q "Error: no test specified" ++ " && exit 1"))])
  ; ("keywords", JArr [])
  ; ("author", JStr EmptyString)
  ; ("license", JStr "ISC") ].

Definition exec (cmd dir : string) (w : World) : bool * World :=
  match nodes w !! dir with
  | Some Dir =>
      if String.eqb cmd "npm init -y"
      then (true, put (join2 dir "package.json") (JsonFile (JObj (npm_init_manifest dir))) w)
      else (String.prefix "npm install " cmd, w)
  | _ => (false, w)
  end.

Definition read_json (p : string) (w : World) : option JValue :=
  match nodes w !! p with
  | Some (JsonFile doc) => Some doc
  | _ => None
  end.

#[global] Instance MemFs_Env : Env World := {|
  process_cwd := wd;
  path_join := join2;
  fs_existsSync := exists_at;
  fs_mkdirSync := mkdir;
  child_execSync := exec;
  fs_outputFileSync := fun p content w => (true, put p (File content) w);
  fs_readJsonSync := read_json;
  fs_writeJsonSync := fun p doc _ w => (true, put p (JsonFile doc) w);
|}.

Definition start (w : World) : State World := mkState w [] [].

Definition nodes_at (s : State World) (p : string) : option Node :=
  nodes (world s) !! p.

(** An empty home directory, and one where [demo] is taken. *)
Definition fresh : World := mkWorld "/home/u" {[ "/home/u" := Dir ]}.
Definition taken : World :=
  mkWorld "/home/u" (<[ "/home/u/demo" := Dir ]> {[ "/home/u" := Dir ]}).

End MemFs.

(* ================================================================== *)
(** ** The order of the steps *)
(* ================================================================== *)

Module Trace.

(** What the action does that can be seen from outside or can throw: a
    line printed, a collaborator call, an assignment to the manifest. *)
Inductive Event : Type :=
| Print (line : Styled)
| Do (c : Call)
| Assign (stmt : string).

Definition prints (evs : list Event) : list Styled :=
  omap (fun e => match e with Print line => Some line | _ => None end) evs.

Definition dos (evs : list Event) : list Call :=
  omap (fun e => match e with Do c => Some c | _ => None end) evs.

Definition is_output (c : Call) : bool :=
  match c with OutputFileSync _ _ => true | _ => false end.

Definition is_manifest_write (c : Call) : bool :=
  match c with WriteJsonSync _ _ _ => true | _ => false end.

Section Trace.
Context {W : Type} `{Env W}.

(** The steps of the action from the existence test on, in source order,
    when the target path is free (lines 18 to 142); [appPath] is the
    application directory and [doc] the document handed to
    [writeJsonSync]. *)
Definition script (appName appPath : string) (doc : JValue) : list Event :=
  ([ Do (ExistsSync appPath)
   ; Print (chalk green ("Creating project in " ++ appPath ++ "..."))
   ; Do (MkdirSync appPath false)
   ; Print (chalk blue "Initializing npm project...")
   ; Do (ExecSync "npm init -y" appPath)
   ; Print (chalk blue "Installing dependencies...")
   ; Do (ExecSync ("npm install " ++ join " " dependencies) appPath)
   ; Do (ExecSync ("npm install --save-dev " ++ join " " devDependencies) appPath)
   ; Print (chalk blue "Setting up project structure...")
   ; Do (MkdirSync (path_join appPath "src") true) ]
   ++ map (fun '(filePath, content) =>
             Do (OutputFileSync (path_join appPath filePath) (trim content)))
        Templates.files
   ++ [ Print (chalk blue "Updating package.json...")
      ; Do (ReadJsonSync (path_join appPath "package.json"))
      ; Assign "packageJson.type = 'module'"
      ; Assign "packageJson.scripts = {...}"
      ; Do (WriteJsonSync (path_join appPath "package.json") doc 2)
      ; Print (chalk green "Project created successfully!")
      ; Print (chalk blue "Run the following commands to get started:")
      ; Print (chalk yellow ("cd " ++ appName))
      ; Print (chalk yellow "npm run dev") ])%list.

(** The collaborator calls of a complete run. *)
Definition plan (appPath : string) (doc : JValue) : list Call :=
  ([ ExistsSync appPath
   ; MkdirSync appPath false
   ; ExecSync "npm init -y" appPath
   ; ExecSync "npm install react react-dom express" appPath
   ; ExecSync "npm install --save-dev vite @vitejs/plugin-react" appPath
   ; MkdirSync (path_join appPath "src") true ]
   ++ map (fun e => OutputFileSync (path_join appPath (fst e)) (snd e)) entries
   ++ [ ReadJsonSync (path_join appPath "package.json")
      ; WriteJsonSync (path_join appPath "package.json") doc 2 ])%list.

(** A call that stays in the application directory: it names [appPath]
    itself, its [src] directory, one of the five files or the manifest,
    or runs a command with [appPath] as working directory. *)
Definition inside (appPath : string) (c : Call) : Prop :=
  match c with
  | ExistsSync p => p = appPath
  | MkdirSync p _ => p = appPath \/ p = path_join appPath "src"
  | ExecSync _ dir => dir = appPath
  | OutputFileSync p _ =>
      exists filePath,
        In filePath (map fst Templates.files) /\ p = path_join appPath filePath
  | ReadJsonSync p | WriteJsonSync p _ _ => p = path_join appPath "package.json"
  end.

(** How a run that made the steps [evs] may end: it returns when
    [complete] holds; it never exits; a collaborator that threw made the
    last step; a [TypeError] comes from an assignment in [bad], which is
    the last step. *)
Definition ends {A} (o : Outcome A) (evs : list Event) (complete : Prop)
    (bad : string -> Prop) : Prop :=
  match o with
  | Returned _ => complete
  | Exited _ => False
  | Threw (Raised c) => exists before, evs = (before ++ [Do c])%list
  | Threw (TypeError stmt) =>
      bad stmt /\ exists before, evs = (before ++ [Assign stmt])%list
  end.

(** [steps m script bad]: whatever way [m] ends, what it printed and the
    calls it made are those of the first steps [evs] of [script d], for
    some document [d]; these are all the steps when [m] returns. *)
Definition steps {A} (m : Run W A) (script : JValue -> list Event)
    (bad : string -> Prop) : Prop :=
  forall s o s',
    m s = (o, s') ->
    exists evs,
      console s' = (console s ++ prints evs)%list
      /\ calls s' = (calls s ++ dos evs)%list
      /\ (exists d rest, script d = (evs ++ rest)%list)
      /\ ends o evs (exists d, script d = evs) bad.

(** The lines of [s'] that were printed after [s]. *)
Definition console_since (s s' : State W) : list Styled :=
  skipn (length (console s)) (console s').

End Trace.

End Trace.

Import Trace.

(* ================================================================== *)
(** ** An in-memory world with failures *)
(* ================================================================== *)

Module Faulty.

(** The in-memory world with two knobs: the calls that throw, and the
    document [npm init -y] leaves in [package.json] when it is not the
    usual manifest. *)
Record World : Type := mkWorld {
  base : MemFs.World;
  failing : Call -> bool;
  init_doc : option JValue;
}.

Definition with_base (w : World) (b : MemFs.World) : World :=
  mkWorld b (failing w) (init_doc w).

Definition guarded (c : Call) (f : MemFs.World -> bool * MemFs.World)
    (w : World) : bool * World :=
  if failing w c then (false, w)
  else let '(ok, b) := f (base w) in (ok, with_base w b).

Definition exec (cmd dir : string) (b : MemFs.World) (doc : option JValue)
    : bool * MemFs.World :=
  match doc with
  | Some d =>
      if String.eqb cmd "npm init -y"
      then (true, MemFs.put (MemFs.join2 dir "package.json") (MemFs.JsonFile d) b)
      else MemFs.exec cmd dir b
  | None => MemFs.exec cmd dir b
  end.

#[global] Instance Faulty_Env : Env World := {|
  process_cwd := fun w => MemFs.wd (base w);
  path_join := MemFs.join2;
  fs_existsSync := fun p w => MemFs.exists_at p (base w);
  fs_mkdirSync := fun p recursive =>
    guarded (MkdirSync p recursive) (MemFs.mkdir p recursive);
  child_execSync := fun cmd dir w =>
    guarded (ExecSync cmd dir) (fun b => exec cmd dir b (init_doc w)) w;
  fs_outputFileSync := fun p content =>
    guarded (OutputFileSync p content)
      (fun b => (true, MemFs.put p (MemFs.File content) b));
  fs_readJsonSync := fun p w =>
    if failing w (ReadJsonSync p) then None else MemFs.read_json p (base w);
  fs_writeJsonSync := fun p doc spaces =>
    guarded (WriteJsonSync p doc spaces)
      (fun b => (true, MemFs.put p (MemFs.JsonFile doc) b));
|}.

Definition start (w : World) : State World := mkState w [] [].

(** The registry is unreachable: [npm install] throws. *)
Definition offline : World :=
  mkWorld MemFs.fresh
    (fun c => match c with
              | ExecSync cmd _ => String.prefix "npm install " cmd
              | _ => false
              end)
    None.

(** [package.json] holds [null]. *)
Definition null_manifest : World :=
  mkWorld MemFs.fresh (fun _ => false) (Some JNull).

(** The disk fills up at the third file. *)
Definition disk_full : World :=
  mkWorld MemFs.fresh
    (fun c => match c with
              | OutputFileSync p _ => String.eqb p "/home/u/demo/index.html"
              | _ => false
              end)
    None.

End Faulty.

(* ================================================================== *)
(** ** Property assignment on plain objects *)
(* ================================================================== *)

Section JsonFacts.
Implicit Types (k : string) (v : JValue) (o : JObject).

Lemma get_set_eq k v o : get k (set k v o) = Some v.
Proof.
  induction o as [|[k' v'] o IH]; simpl.
  - now rewrite String.eqb_refl.
  - destruct (String.eqb_spec k' k) as [->|Hne]; simpl.
    + now rewrite String.eqb_refl.
    + destruct (String.eqb_spec k' k); [contradiction | exact IH].
Qed.

Lemma get_set_ne k k' v o : k <> k' -> get k' (set k v o) = get k' o.
Proof.
  intros Hne. induction o as [|[k0 v0] o IH]; simpl.
  - destruct (String.eqb_spec k k'); [contradiction | reflexivity].
  - destruct (String.eqb_spec k0 k) as [->|Hk0]; simpl.
    + destruct (String.eqb_spec k k'); [contradiction | reflexivity].
    + destruct (String.eqb_spec k0 k'); [reflexivity | exact IH].
Qed.

Lemma set_get_same k v o : get k o = Some v -> set k v o = o.
Proof.
  induction o as [|[k' v'] o IH]; simpl; [discriminate|].
  destruct (String.eqb_spec k' k) as [->|Hne]; intros Hget.
  - now inversion Hget.
  - now rewrite IH.
Qed.

(** Assigning [k] neither moves nor changes a property the predicate
    [p] keeps, when [p] drops [k]. *)
Lemma filter_set_dropped (p : string -> bool) k v o :
  p k = false ->
  List.filter (fun kv => p (fst kv)) (set k v o) = List.filter (fun kv => p (fst kv)) o.
Proof.
  intros Hp. induction o as [|[k' v'] o IH]; simpl.
  - now rewrite Hp.
  - destruct (String.eqb_spec k' k) as [->|Hne]; simpl.
    + now rewrite Hp.
    + now rewrite IH.
Qed.

(** An assignment never removes a property. *)
Lemma keys_set k v o :
  keys (set k v o) = if existsb (String.eqb k) (keys o) then keys o
                     else (keys o ++ [k])%list.
Proof.
  unfold keys. induction o as [|[k' v'] o IH]; simpl; [reflexivity|].
  rewrite (String.eqb_sym k k').
  destruct (String.eqb_spec k' k) as [->|Hne]; simpl; [reflexivity|].
  rewrite IH. now destruct (existsb (String.eqb k) (map fst o)).
Qed.

End JsonFacts.

(** The patch of the specification is the two assignments of the source. *)
Lemma apply_patch_manifestPatch (m : JObject) :
  apply_patch manifestPatch m = update_packageJson m.
Proof. reflexivity. Qed.

Lemma get_type_updated (m : JObject) :
  get "type" (update_packageJson m) = Some (JStr "module").
Proof.
  unfold update_packageJson. rewrite get_set_ne by discriminate.
  apply get_set_eq.
Qed.

Lemma get_scripts_updated (m : JObject) :
  get "scripts" (update_packageJson m) = Some (JObj scripts).
Proof. apply get_set_eq. Qed.

Lemma update_packageJson_fixpoint (m : JObject) :
  get "type" m = Some (JStr "module") ->
  get "scripts" m = Some (JObj scripts) ->
  update_packageJson m = m.
Proof.
  intros Ht Hs. unfold update_packageJson.
  rewrite (set_get_same "type" _ _ Ht). exact (set_get_same "scripts" _ _ Hs).
Qed.

Lemma preserved_update (m : JObject) :
  preserved (update_packageJson m) = preserved m.
Proof.
  unfold preserved, update_packageJson.
  rewrite (filter_set_dropped untouched) by reflexivity.
  now rewrite (filter_set_dropped untouched) by reflexivity.
Qed.

(* ================================================================== *)
(** ** The manifest patch *)
(* ================================================================== *)

(** C2. For every application name, the manifest patch of
    [generate appName] is the overwrite of [type] by ["module"] and of
    [scripts] by the mapping of exactly [dev], [build] and [start] to
    [vite], [vite build] and [NODE_ENV=production node server.js]; applied
    to any manifest it is the two assignments of the source, and the
    patched manifest has these two bindings. *)
Theorem C2_manifest_patch_type_and_scripts (appName : string) (m : JObject) :
  let patch := snd (generate appName) in
  let expected_scripts :=
    JObj [ ("dev", JStr "vite")
         ; ("build", JStr "vite build")
         ; ("start", JStr "NODE_ENV=production node server.js") ] in
  patch = [ ("type", JStr "module"); ("scripts", expected_scripts) ]
  /\ apply_patch patch m = update_packageJson m
  /\ get "type" (apply_patch patch m) = Some (JStr "module")
  /\ get "scripts" (apply_patch patch m) = Some expected_scripts
  /\ keys scripts = ["dev"; "build"; "start"].
Proof.
  cbn zeta. change (snd (generate appName)) with manifestPatch.
  rewrite apply_patch_manifestPatch.
  repeat split.
  - apply get_type_updated.
  - apply get_scripts_updated.
Qed.

(** C6. For every manifest [m] and every key [k] other than [type] and
    [scripts], the patched manifest binds [k] as [m] does, and the
    properties other than [type] and [scripts] are the same, with the
    same values, in the same order. *)
Theorem C6_patch_preserves_other_keys (appName : string) (m : JObject) (k : string) :
  k <> "type" -> k <> "scripts" ->
  let m' := apply_patch (snd (generate appName)) m in
  get k m' = get k m /\ preserved m' = preserved m.
Proof.
  intros Ht Hs. cbn zeta. change (snd (generate appName)) with manifestPatch.
  rewrite apply_patch_manifestPatch. split.
  - unfold update_packageJson.
    rewrite get_set_ne by congruence. now rewrite get_set_ne by congruence.
  - apply preserved_update.
Qed.

Lemma C6_description_witness :
  let m := [("name", JStr "demo"); ("description", JStr "x")] in
  let m' := apply_patch (snd (generate "demo")) m in
  get "description" m' = Some (JStr "x") /\ preserved m' = m.
Proof.
  exact (C6_patch_preserves_other_keys "demo"
           [("name", JStr "demo"); ("description", JStr "x")] "description"
           ltac:(discriminate) ltac:(discriminate)).
Defined.

(** C7. Applying the patch twice gives the document that applying it
    once gives. *)
Theorem C7_patch_idempotent (appName : string) (m : JObject) :
  let patch := snd (generate appName) in
  apply_patch patch (apply_patch patch m) = apply_patch patch m.
Proof.
  cbn zeta. change (snd (generate appName)) with manifestPatch.
  rewrite !apply_patch_manifestPatch.
  apply update_packageJson_fixpoint.
  - apply get_type_updated.
  - apply get_scripts_updated.
Qed.

(** C9. Whatever the [scripts] of the base manifest held, the patched
    manifest's [scripts] is the three-entry mapping of the source: a name
    other than [dev], [build] and [start] is not in it. *)
Theorem C9_scripts_replaced_not_merged (appName : string) (m : JObject) (name : string) :
  name <> "dev" -> name <> "build" -> name <> "start" ->
  exists patched_scripts,
    get "scripts" (apply_patch (snd (generate appName)) m) = Some (JObj patched_scripts)
    /\ patched_scripts = scripts
    /\ get name patched_scripts = None.
Proof.
  intros Hd Hb Hs. exists scripts.
  change (snd (generate appName)) with manifestPatch.
  rewrite apply_patch_manifestPatch. split; [apply get_scripts_updated|].
  split; [reflexivity|]. unfold scripts. cbn [get].
  rewrite (proj2 (String.eqb_neq "dev" name)) by congruence.
  rewrite (proj2 (String.eqb_neq "build" name)) by congruence.
  now rewrite (proj2 (String.eqb_neq "start" name)) by congruence.
Qed.

Lemma C9_npm_test_script_witness :
  (exists old cmd,
     get "scripts" (MemFs.npm_init_manifest "/home/u/demo") = Some (JObj old)
     /\ get "test" old = Some cmd)
  /\ exists patched_scripts,
       get "scripts" (apply_patch (snd (generate "demo"))
                        (MemFs.npm_init_manifest "/home/u/demo"))
       = Some (JObj patched_scripts)
       /\ patched_scripts = scripts
       /\ get "test" patched_scripts = None.
Proof.
  split.
  - eexists _, _. split; reflexivity.
  - exact (C9_scripts_replaced_not_merged "demo"
             (MemFs.npm_init_manifest "/home/u/demo") "test"
             ltac:(discriminate) ltac:(discriminate) ltac:(discriminate)).
Defined.

(* ================================================================== *)
(** ** The scaffold entries *)
(* ================================================================== *)

(** C3. For every application name the entries of [generate appName] are
    five, with the relative paths [server.js], [vite.config.js],
    [index.html], [src/index.jsx] and [src/App.jsx], each once. *)
Theorem C3_five_fixed_entries (appName : string) :
  let paths := map fst (fst (generate appName)) in
  length (fst (generate appName)) = 5
  /\ paths = ["server.js"; "vite.config.js"; "index.html"; "src/index.jsx"; "src/App.jsx"]
  /\ List.NoDup paths.
Proof.
  cbn zeta. split; [reflexivity|]. split; [reflexivity|].
  change (map fst (fst (generate appName)))
    with ["server.js"; "vite.config.js"; "index.html"; "src/index.jsx"; "src/App.jsx"].
  repeat (apply List.NoDup_cons; [simpl; intuition discriminate|]).
  apply List.NoDup_nil.
Qed.

(* ================================================================== *)
(** ** Running the action *)
(* ================================================================== *)

Section RunFacts.
Context {W : Type} `{Env W}.
Implicit Types (s : State W).

Lemma bind_returned {A B} (m : Run W A) (k : A -> Run W B) s b s' :
  (m ≫= k) s = (Returned b, s') ->
  exists a s1, m s = (Returned a, s1) /\ k a s1 = (Returned b, s').
Proof.
  unfold mbind, Run_bind. destruct (m s) as [[a|code|e] s1]; intros Hk.
  - now exists a, s1.
  - discriminate Hk.
  - discriminate Hk.
Qed.

Lemma bind_exited {A B} (m : Run W A) (k : A -> Run W B) s code s' :
  (m ≫= k) s = (Exited code, s') ->
  m s = (Exited code, s')
  \/ exists a s1, m s = (Returned a, s1) /\ k a s1 = (Exited code, s').
Proof.
  unfold mbind, Run_bind. destruct (m s) as [[a|code'|e] s1]; intros Hk.
  - right. now exists a, s1.
  - left. now inversion Hk.
  - discriminate Hk.
Qed.

(** *** Computations that cannot exit *)

Lemma never_exits_bind {A B} (m : Run W A) (k : A -> Run W B) :
  never_exits m -> (forall a, never_exits (k a)) -> never_exits (m ≫= k).
Proof.
  intros Hm Hk s code s' Hrun.
  destruct (bind_exited _ _ _ _ _ Hrun) as [Hex|(a & s1 & _ & Hex)].
  - exact (Hm _ _ _ Hex).
  - exact (Hk _ _ _ _ Hex).
Qed.

Lemma never_exits_ret {A} (a : A) : never_exits (mret a : Run W A).
Proof. intros s code s' Hrun. discriminate Hrun. Qed.

Lemma never_exits_console_log line : never_exits (console_log line : Run W unit).
Proof. intros s code s' Hrun. discriminate Hrun. Qed.

Lemma never_exits_mutate c (f : W -> bool * W) : never_exits (mutate c f).
Proof.
  intros s code s'. unfold mutate.
  destruct (f (world s)) as [[|] w']; discriminate.
Qed.

Lemma never_exits_readJsonSync p : never_exits (readJsonSync p).
Proof.
  intros s code s'. unfold readJsonSync.
  destruct (fs_readJsonSync p (world s)); discriminate.
Qed.

Lemma never_exits_assign_stmt stmt k v doc :
  never_exits (assign_stmt stmt k v doc : Run W JValue).
Proof.
  intros s code s'. unfold assign_stmt.
  destruct (assign k v doc); discriminate.
Qed.

Lemma never_exits_for_of {A} (xs : list A) (body : A -> Run W unit) :
  (forall x, never_exits (body x)) -> never_exits (for_of xs body).
Proof.
  intros Hbody. induction xs as [|x xs IH]; simpl.
  - apply never_exits_ret.
  - apply never_exits_bind; [apply Hbody | intros _; exact IH].
Qed.

(** *** What a returning computation did *)

Lemma console_log_returned line s a s' :
  console_log line s = (Returned a, s') ->
  s' = mkState (world s) (console s ++ [line])%list (calls s).
Proof. intros Hrun. now inversion Hrun. Qed.

Lemma mutate_returned c f s a s' :
  mutate c f s = (Returned a, s') ->
  exists w', f (world s) = (true, w')
             /\ s' = mkState w' (console s) (calls s ++ [c])%list.
Proof.
  unfold mutate. destruct (f (world s)) as [[|] w']; intros Hrun.
  - exists w'. now inversion Hrun.
  - discriminate Hrun.
Qed.

Lemma readJsonSync_returned p s doc s' :
  readJsonSync p s = (Returned doc, s') ->
  fs_readJsonSync p (world s) = Some doc
  /\ s' = mkState (world s) (console s) (calls s ++ [ReadJsonSync p])%list.
Proof.
  unfold readJsonSync. destruct (fs_readJsonSync p (world s)); intros Hrun.
  - now inversion Hrun.
  - discriminate Hrun.
Qed.

Lemma assign_stmt_returned stmt k v doc s doc' s' :
  assign_stmt stmt k v doc s = (Returned doc', s') ->
  assign k v doc = Some doc' /\ s' = s.
Proof.
  unfold assign_stmt. destruct (assign k v doc); intros Hrun.
  - now inversion Hrun.
  - discriminate Hrun.
Qed.

(** The loop of step 3 makes one [outputFileSync] call per entry, in
    order, and prints nothing. *)
Lemma for_of_output_returned (g h : string -> string) xs s a s' :
  for_of xs (fun '(p, c) => outputFileSync (g p) (h c)) s = (Returned a, s') ->
  calls s' = (calls s ++ map (fun '(p, c) => OutputFileSync (g p) (h c)) xs)%list
  /\ console s' = console s.
Proof.
  revert s. induction xs as [|[p c] xs IH]; intros s Hrun.
  - inversion Hrun. simpl. now rewrite app_nil_r.
  - simpl in Hrun. apply bind_returned in Hrun as (u & s1 & Hout & Hrest).
    apply mutate_returned in Hout as (w' & _ & ->).
    apply IH in Hrest as [-> ->]. simpl.
    now rewrite <- app_assoc.
Qed.

End RunFacts.

Section ActionFacts.
Context {W : Type} `{Env W}.
Implicit Types (s : State W).

Lemma run_cwd {A} (k : string -> Run W A) s :
  (cwd ≫= k) s = k (process_cwd (world s)) s.
Proof. reflexivity. Qed.

Lemma run_existsSync {A} p (k : bool -> Run W A) s :
  (existsSync p ≫= k) s
  = k (fs_existsSync p (world s)) (log_call (ExistsSync p) s).
Proof. reflexivity. Qed.

Ltac never_exits_step :=
  first
    [ apply never_exits_ret
    | apply never_exits_console_log
    | apply never_exits_mutate
    | apply never_exits_readJsonSync
    | apply never_exits_assign_stmt
    | apply never_exits_for_of; intros [? ?]
    | apply never_exits_bind; [|intros ?] ].

(** With the target path taken, the action prints one red line and
    exits with status 1; the only call made is the existence test. *)
Lemma action_path_taken appName s :
  let appPath := path_join (process_cwd (world s)) appName in
  fs_existsSync appPath (world s) = true ->
  action appName s
  = (Exited 1,
     mkState (world s)
       (console s ++ [chalk red ("Directory " ++ appName ++ " already exists.")])%list
       (calls s ++ [ExistsSync appPath])%list).
Proof.
  intros appPath Htaken. unfold action.
  rewrite run_cwd. cbv zeta. rewrite run_existsSync. fold appPath.
  rewrite Htaken. reflexivity.
Qed.

(** With the target path free, nothing in the action calls
    [process.exit]. *)
Lemma action_path_free_never_exits appName s code s' :
  fs_existsSync (path_join (process_cwd (world s)) appName) (world s) = false ->
  action appName s <> (Exited code, s').
Proof.
  intros Hfree. unfold action.
  rewrite run_cwd. cbv zeta. rewrite run_existsSync, Hfree.
  match goal with
  | |- ?m _ <> _ => enough (Hne : never_exits m) by apply Hne
  end.
  unfold mkdirSync, execSync, outputFileSync, writeJsonSync.
  repeat never_exits_step.
Qed.

(** A run that returns found the path free, made the calls below in
    this order, wrote the entries of [generate] under the application
    directory and wrote back the manifest it read with [type] and
    [scripts] assigned. *)
Lemma action_hands_over_generate appName s s' :
  action appName s = (Returned tt, s') ->
  let appPath := path_join (process_cwd (world s)) appName in
  let manifest := path_join appPath "package.json" in
  fs_existsSync appPath (world s) = false
  /\ exists doc doc1 doc2,
       assign "type" (JStr "module") doc = Some doc1
       /\ assign "scripts" (JObj scripts) doc1 = Some doc2
       /\ (forall m, doc = JObj m ->
             doc2 = JObj (apply_patch (snd (generate appName)) m))
       /\ calls s'
          = (calls s
             ++ [ ExistsSync appPath
                ; MkdirSync appPath false
                ; ExecSync "npm init -y" appPath
                ; ExecSync "npm install react react-dom express" appPath
                ; ExecSync "npm install --save-dev vite @vitejs/plugin-react" appPath
                ; MkdirSync (path_join appPath "src") true ]
             ++ map (fun e => OutputFileSync (path_join appPath (fst e)) (snd e))
                  (fst (generate appName))
             ++ [ ReadJsonSync manifest; WriteJsonSync manifest doc2 2 ])%list.
Proof.
  intros Hrun appPath manifest.
  destruct (fs_existsSync appPath (world s)) eqn:Hfree.
  { rewrite (action_path_taken appName s Hfree) in Hrun. discriminate Hrun. }
  split; [reflexivity|].
  unfold action in Hrun.
  rewrite run_cwd in Hrun. cbv zeta in Hrun. rewrite run_existsSync in Hrun.
  fold appPath in Hrun. rewrite Hfree in Hrun.
  unfold mkdirSync, execSync, writeJsonSync in Hrun.
  apply bind_returned in Hrun as (? & s0 & Hstep & Hrun).
  inversion Hstep; subst s0; clear Hstep.
  repeat
    match type of Hrun with
    | (console_log _ ≫= _) _ = _ =>
        apply bind_returned in Hrun as (? & ? & Hstep & Hrun);
        apply console_log_returned in Hstep as ->
    | (mutate _ _ ≫= _) _ = _ =>
        apply bind_returned in Hrun as (? & ? & Hstep & Hrun);
        apply mutate_returned in Hstep as (? & _ & ->)
    end.
  apply bind_returned in Hrun as (? & s3 & Hloop & Hrun).
  apply (for_of_output_returned (path_join appPath) trim) in Hloop as [Hcalls3 _].
  apply bind_returned in Hrun as (? & s4 & Hstep & Hrun).
  apply console_log_returned in Hstep.
  apply bind_returned in Hrun as (doc & s5 & Hread & Hrun).
  apply readJsonSync_returned in Hread as [_ Hs5].
  apply bind_returned in Hrun as (doc1 & s6 & Hty & Hrun).
  apply assign_stmt_returned in Hty as [Hty ->].
  apply bind_returned in Hrun as (doc2 & s7 & Hsc & Hrun).
  apply assign_stmt_returned in Hsc as [Hsc ->].
  apply bind_returned in Hrun as (? & s8 & Hwrite & Hrun).
  apply mutate_returned in Hwrite as (? & _ & Hs8).
  repeat
    match type of Hrun with
    | (console_log _ ≫= _) _ = _ =>
        apply bind_returned in Hrun as (? & ? & Hstep' & Hrun);
        apply console_log_returned in Hstep' as ->
    end.
  apply console_log_returned in Hrun as ->.
  exists doc, doc1, doc2. split; [exact Hty|]. split; [exact Hsc|]. split.
  - intros m ->. simpl in Hty. inversion Hty; subst doc1.
    simpl in Hsc. now inversion Hsc.
  - subst s8 s5 s4. simpl. rewrite Hcalls3. simpl.
    fold manifest. rewrite <- !app_assoc. reflexivity.
Qed.

Lemma written_app (cs1 cs2 : list Call) :
  written (cs1 ++ cs2) = (written cs1 ++ written cs2)%list.
Proof. apply omap_app. Qed.

Lemma written_outputs {A} (g h : A -> string) (xs : list A) :
  written (map (fun x => OutputFileSync (g x) (h x)) xs) = map h xs.
Proof. induction xs as [|x xs IH]; simpl; [reflexivity | now rewrite <- IH]. Qed.

(** The contents a returning run writes are those of the entries of
    [generate], in order. *)
Lemma action_writes_entries appName s s' :
  action appName s = (Returned tt, s') ->
  written (calls_since s s') = map snd (fst (generate appName)).
Proof.
  intros Hrun.
  destruct (action_hands_over_generate appName s s' Hrun)
    as (_ & doc & doc1 & doc2 & _ & _ & _ & Hcalls).
  unfold calls_since. rewrite Hcalls.
  rewrite skipn_app, skipn_all, Nat.sub_diag, skipn_O.
  rewrite !written_app.
  rewrite (written_outputs (fun e : string * string => path_join _ (fst e)) snd).
  reflexivity.
Qed.

(** Two returning runs, for any two names in any two worlds, write the
    same contents. *)
Lemma action_writes_name_invariant n1 n2 s1 s1' s2 s2' :
  action n1 s1 = (Returned tt, s1') ->
  action n2 s2 = (Returned tt, s2') ->
  written (calls_since s1 s1') = written (calls_since s2 s2').
Proof.
  intros Hrun1 Hrun2.
  rewrite (action_writes_entries _ _ _ Hrun1).
  now rewrite (action_writes_entries _ _ _ Hrun2).
Qed.

End ActionFacts.

(** C5. When the target path exists, the action prints a red error line
    and exits with status 1, leaving the world as it was and having made
    no call but the existence test: no directory made, no file written, no
    manifest written, no process started.  The action exits through
    [process.exit] under no other condition. *)
Theorem C5_existing_target_aborts_before_any_mutation
    {W : Type} `{Env W} (appName : string) (s : State W) :
  let appPath := path_join (process_cwd (world s)) appName in
  (fs_existsSync appPath (world s) = true ->
   exists s',
     action appName s = (Exited 1, s')
     /\ world s' = world s
     /\ console s' = (console s
                      ++ [chalk red ("Directory " ++ appName ++ " already exists.")])%list
     /\ calls s' = (calls s ++ [ExistsSync appPath])%list
     /\ forallb is_query (calls_since s s') = true)
  /\ (forall code s',
        action appName s = (Exited code, s') ->
        fs_existsSync appPath (world s) = true /\ code = 1%Z).
Proof.
  intros appPath. split.
  - intros Htaken. eexists. split; [exact (action_path_taken appName s Htaken)|].
    simpl. repeat split. unfold calls_since. simpl.
    rewrite skipn_app, skipn_all, Nat.sub_diag. reflexivity.
  - intros code s' Hrun.
    destruct (fs_existsSync appPath (world s)) eqn:Hfree.
    + rewrite (action_path_taken appName s Hfree) in Hrun.
      inversion Hrun. now split.
    + now apply action_path_free_never_exits in Hrun.
Qed.

Lemma C5_taken_directory_witness :
  exists s',
    action "demo" (MemFs.start MemFs.taken) = (Exited 1, s')
    /\ world s' = MemFs.taken
    /\ console s' = [chalk red "Directory demo already exists."]
    /\ calls s' = [ExistsSync "/home/u/demo"]
    /\ forallb is_query (calls_since (MemFs.start MemFs.taken) s') = true.
Proof.
  exact (proj1 (C5_existing_target_aborts_before_any_mutation
                  "demo" (MemFs.start MemFs.taken)) eq_refl).
Defined.

(** C4. [generate] does not depend on the application name: any two
    names give the same entries, byte for byte, and the same patch. So do
    the runs of the action: two runs that return, for any two names from
    any two states, hand the same contents to [outputFileSync], those of
    the entries. *)
Theorem C4_generate_name_invariant (n1 n2 : string) :
  generate n1 = generate n2
  /\ forall (W : Type) (E : Env W) (s1 s1' s2 s2' : State W),
       action n1 s1 = (Returned tt, s1') ->
       action n2 s2 = (Returned tt, s2') ->
       written (calls_since s1 s1') = written (calls_since s2 s2')
       /\ written (calls_since s1 s1') = map snd (fst (generate n1)).
Proof.
  split; [reflexivity|]. intros W E s1 s1' s2 s2' Hrun1 Hrun2. split.
  - exact (action_writes_name_invariant _ _ _ _ _ _ Hrun1 Hrun2).
  - exact (action_writes_entries _ _ _ Hrun1).
Qed.

Lemma C4_two_names_witness :
  let s0 := MemFs.start MemFs.fresh in
  let demo := snd (action "demo" s0) in
  let other := snd (action "other" s0) in
  written (calls_since s0 demo) = written (calls_since s0 other)
  /\ written (calls_since s0 demo) = map snd (fst (generate "demo")).
Proof.
  apply (proj2 (C4_generate_name_invariant "demo" "other") MemFs.World _
           (MemFs.start MemFs.fresh) _ (MemFs.start MemFs.fresh) _);
    vm_compute; reflexivity.
Defined.

(** On an empty home directory the action returns, and the manifest on
    disk is the one [npm init -y] wrote with [scripts] replaced in place
    and [type] added last. *)
Example fresh_run_returns :
  let '(outcome, s') := action "demo" (MemFs.start MemFs.fresh) in
  outcome = Returned tt
  /\ MemFs.read_json "/home/u/demo/package.json" (world s')
     = Some (JObj (update_packageJson (MemFs.npm_init_manifest "/home/u/demo")))
  /\ MemFs.nodes_at s' "/home/u/demo/src/App.jsx"
     = option_map MemFs.File (content_of "demo" "src/App.jsx").
Proof. vm_compute. split; [|split]; reflexivity. Qed.

(* ================================================================== *)
(** ** The generated texts *)
(* ================================================================== *)

(** C8. The HTML shell has exactly one element whose [id] is [root], the
    [div], and exactly one [script] element of type [module], whose [src]
    is [/src/index.jsx], the path of the UI bootstrap entry from the site
    root; it has no other [script] element. *)
Theorem C8_html_shell_one_mount_one_module_script (appName : string) :
  exists html,
    content_of appName "index.html" = Some html
    /\ List.filter (Html.has_attr "id" "root") (Html.elements html)
       = [ Html.mkTag "div" [("id", "root")] ]
    /\ List.filter Html.is_module_script (Html.elements html)
       = [ Html.mkTag "script" [("type", "module"); ("src", "/src/index.jsx")] ]
    /\ List.filter (fun t => String.eqb (Html.tag_name t) "script") (Html.elements html)
       = List.filter Html.is_module_script (Html.elements html)
    /\ occurrences ("id=" ++ q "root") html = 1
    /\ occurrences "<script" html = 1
    /\ In "src/index.jsx" (map fst (fst (generate appName))).
Proof.
  exists (trim Templates.index_html). split; [reflexivity|].
  do 5 (split; [vm_compute; reflexivity|]).
  vm_compute. tauto.
Qed.

(** C10. The port the generated server listens on when [PORT] is unset
    and the port of the proxy target in the generated bundler
    configuration are read from the two texts, and both are 3000. *)
Theorem C10_server_default_port_is_proxy_target_port (appName : string) :
  exists server config port,
    content_of appName "server.js" = Some server
    /\ content_of appName "vite.config.js" = Some config
    /\ Server.default_port server = Some port
    /\ Server.listen_port server None = Some (Server.Default port)
    /\ ViteConfig.proxy_target_port config = Some port
    /\ occurrences "target: 'http://localhost:3000'" config = 1
    /\ port = 3000%Z.
Proof.
  exists (trim Templates.server_js), (trim Templates.vite_config_js), 3000%Z.
  split; [reflexivity|]. split; [reflexivity|].
  do 4 (split; [vm_compute; reflexivity|]).
  reflexivity.
Qed.

Section RewriteFacts.

Lemma rewrite_api_prefixed (rest : string) :
  ViteConfig.rewrite ("/api" ++ rest) = "/" ++ rest.
Proof. destruct rest; reflexivity. Qed.

Lemma length_cons_neq (c : ascii) (s : string) : String c s <> s.
Proof.
  intros Heq. apply (f_equal String.length) in Heq. simpl in Heq. lia.
Qed.

End RewriteFacts.

(** C1. The bundler configuration declares one proxy rule, for the prefix
    [/api]; its rewrite is [path.replace(/api/, '')], which removes the
    first [api] and not [/api]: a forwarded path [/api<rest>] becomes
    [/<rest>], so [/api/users] is forwarded as [//users] and never as
    [/users]. *)
Theorem C1_rewrite_removes_api_without_the_slash (appName : string) :
  exists config src,
    content_of appName "vite.config.js" = Some config
    /\ ViteConfig.proxy_prefixes config = ["/api"]
    /\ ViteConfig.rewrite_source config = Some src
    /\ src = "path.replace(/api/, '')"
    /\ (forall path, ViteConfig.eval_rewrite src path = Some (ViteConfig.rewrite path))
    /\ ViteConfig.rewrite "/api/users" = "//users"
    /\ (forall rest, ViteConfig.rewrite ("/api" ++ rest) = "/" ++ rest)
    /\ (forall rest, ViteConfig.rewrite ("/api" ++ rest) <> rest).
Proof.
  exists (trim Templates.vite_config_js), "path.replace(/api/, '')".
  split; [reflexivity|].
  split; [vm_compute; reflexivity|].
  split; [vm_compute; reflexivity|].
  split; [reflexivity|].
  split; [intros path; reflexivity|].
  split; [reflexivity|].
  split; [exact rewrite_api_prefixed|].
  intros rest. rewrite rewrite_api_prefixed. apply length_cons_neq.
Qed.

(* ================================================================== *)
(** ** The steps of a run *)
(* ================================================================== *)

Section StepFacts.
Context {W : Type} `{Env W}.
Implicit Types (s : State W) (bad : string -> Prop).

Lemma prints_app (e1 e2 : list Event) :
  prints (e1 ++ e2) = (prints e1 ++ prints e2)%list.
Proof. apply omap_app. Qed.

Lemma dos_app (e1 e2 : list Event) :
  dos (e1 ++ e2) = (dos e1 ++ dos e2)%list.
Proof. apply omap_app. Qed.

(** A computation that makes all of [evs] however it ends. *)
Lemma steps_whole {A} (m : Run W A) evs bad :
  (forall s o s',
     m s = (o, s') ->
     console s' = (console s ++ prints evs)%list
     /\ calls s' = (calls s ++ dos evs)%list
     /\ ends o evs True bad) ->
  steps m (fun _ => evs) bad.
Proof.
  intros Hm s o s' Hrun. destruct (Hm _ _ _ Hrun) as (Hcon & Hcalls & Hend).
  exists evs. split; [exact Hcon|]. split; [exact Hcalls|]. split.
  - exists JNull, []. now rewrite app_nil_r.
  - destruct o as [a|code|[c|stmt]]; simpl in *; try exact Hend.
    now exists JNull.
Qed.

Lemma steps_ret {A} (a : A) bad : steps (mret a : Run W A) (fun _ => []) bad.
Proof.
  apply steps_whole. intros s o s' Hrun. inversion Hrun; subst. simpl.
  now rewrite !app_nil_r.
Qed.

Lemma steps_console_log line bad :
  steps (console_log line : Run W unit) (fun _ => [Print line]) bad.
Proof.
  apply steps_whole. intros s o s' Hrun. inversion Hrun; subst. simpl.
  now rewrite app_nil_r.
Qed.

Lemma steps_mutate c (f : W -> bool * W) bad :
  steps (mutate c f) (fun _ => [Do c]) bad.
Proof.
  apply steps_whole. intros s o s'. unfold mutate.
  destruct (f (world s)) as [[|] w']; intros Hrun; inversion Hrun; subst; simpl;
    rewrite app_nil_r; (split; [reflexivity|]); (split; [reflexivity|]).
  - exact I.
  - now exists [].
Qed.

Lemma steps_readJsonSync p bad :
  steps (readJsonSync p) (fun _ => [Do (ReadJsonSync p)]) bad.
Proof.
  apply steps_whole. intros s o s'. unfold readJsonSync.
  destruct (fs_readJsonSync p (world s)); intros Hrun; inversion Hrun; subst; simpl;
    rewrite app_nil_r; (split; [reflexivity|]); (split; [reflexivity|]).
  - exact I.
  - now exists [].
Qed.

(** Sequencing: the steps of [m], then those of the continuation. *)
Lemma steps_bind {A B} (m : Run W A) (k : A -> Run W B) evs1 script2 bad :
  steps m (fun _ => evs1) bad ->
  (forall a, steps (k a) script2 bad) ->
  steps (m ≫= k) (fun d => evs1 ++ script2 d)%list bad.
Proof.
  intros Hm Hk s o s' Hrun. unfold mbind, Run_bind in Hrun.
  destruct (m s) as [o1 s1] eqn:Hms.
  destruct (Hm _ _ _ Hms) as (e1 & Hcon1 & Hcalls1 & (_ & rest1 & Hpre1) & Hend1).
  destruct o1 as [a|code|e]; simpl in Hend1.
  - destruct Hend1 as [_ <-].
    destruct (Hk a _ _ _ Hrun) as (e2 & Hcon2 & Hcalls2 & (d & rest2 & Hpre2) & Hend2).
    exists (evs1 ++ e2)%list. rewrite prints_app, dos_app.
    rewrite Hcon2, Hcon1, Hcalls2, Hcalls1, <- !app_assoc.
    split; [reflexivity|]. split; [reflexivity|]. split.
    + exists d, rest2. now rewrite Hpre2, <- app_assoc.
    + destruct o as [b|code|[c|stmt]]; simpl in *.
      * destruct Hend2 as [d' Hd']. exists d'. now rewrite Hd'.
      * exact Hend2.
      * destruct Hend2 as [before ->]. exists (evs1 ++ before)%list.
        now rewrite <- app_assoc.
      * destruct Hend2 as [Hbad [before ->]]. split; [exact Hbad|].
        exists (evs1 ++ before)%list. now rewrite <- app_assoc.
  - contradiction.
  - injection Hrun as <- <-. exists e1.
    split; [exact Hcon1|]. split; [exact Hcalls1|]. split.
    + exists JNull, (rest1 ++ script2 JNull)%list.
      now rewrite Hpre1, <- app_assoc.
    + exact Hend1.
Qed.

(** The script may name the document the continuation was given. *)
Lemma steps_instance {A} (m : Run W A) script d0 bad :
  steps m (fun _ => script d0) bad -> steps m script bad.
Proof.
  intros Hm s o s' Hrun.
  destruct (Hm _ _ _ Hrun) as (evs & Hcon & Hcalls & (_ & rest & Hpre) & Hend).
  exists evs. split; [exact Hcon|]. split; [exact Hcalls|]. split.
  - now exists d0, rest.
  - destruct o as [a|code|[c|stmt]]; simpl in *; try exact Hend.
    destruct Hend as [_ Hd]. now exists d0.
Qed.

Lemma steps_ext {A} (m : Run W A) script1 script2 bad :
  steps m script1 bad -> (forall d, script1 d = script2 d) -> steps m script2 bad.
Proof.
  intros Hm Hext s o s' Hrun.
  destruct (Hm _ _ _ Hrun) as (evs & Hcon & Hcalls & (d & rest & Hpre) & Hend).
  exists evs. split; [exact Hcon|]. split; [exact Hcalls|]. split.
  - exists d, rest. now rewrite <- Hext.
  - destruct o as [a|code|[c|stmt]]; simpl in *; try exact Hend.
    destruct Hend as [d' Hd']. exists d'. now rewrite <- Hext.
Qed.

(** The loop of step 3: one [outputFileSync] per property, in order,
    stopping at the first that throws. *)
Lemma steps_for_of_outputs (g h : string -> string) xs bad :
  steps (for_of xs (fun '(p, c) => outputFileSync (g p) (h c)))
    (fun _ => map (fun '(p, c) => Do (OutputFileSync (g p) (h c))) xs) bad.
Proof.
  induction xs as [|[p c] xs IH]; simpl.
  - apply steps_ret.
  - apply (steps_bind _ _ [Do (OutputFileSync (g p) (h c))] _ bad).
    + apply steps_mutate.
    + intros _. exact IH.
Qed.

(** The two assignments of step 4: only the first can throw, since it
    returns an object or an array, which take any property. *)
Lemma steps_assign_twice {B} st1 k1 v1 st2 k2 v2 doc
    (k : JValue -> Run W B) script2 bad :
  bad st1 ->
  (forall doc2, steps (k doc2) (fun _ => script2 doc2) bad) ->
  steps (assign_stmt st1 k1 v1 doc ≫= fun doc1 =>
         assign_stmt st2 k2 v2 doc1 ≫= k)
    (fun d => Assign st1 :: Assign st2 :: script2 d) bad.
Proof.
  intros Hbad Hk s o s' Hrun.
  unfold mbind, Run_bind, assign_stmt in Hrun.
  destruct doc as [| b | n | str | items | props]; simpl in Hrun;
    try (inversion Hrun; subst; exists [Assign st1]; simpl;
         rewrite !app_nil_r; repeat split;
         [ now exists JNull, (Assign st2 :: script2 JNull)
         | exact Hbad | now exists [] ]).
  - destruct (Hk _ _ _ _ Hrun) as (evs & Hcon & Hcalls & (_ & rest & Hpre) & Hend).
    exists (Assign st1 :: Assign st2 :: evs). simpl.
    split; [exact Hcon|]. split; [exact Hcalls|]. split.
    + exists (JArr items), rest. now rewrite Hpre.
    + destruct o as [a|code|[c|stmt]]; simpl in *.
      * destruct Hend as [_ <-]. now exists (JArr items).
      * exact Hend.
      * destruct Hend as [before ->]. now exists (Assign st1 :: Assign st2 :: before).
      * destruct Hend as [Hb [before ->]]. split; [exact Hb|].
        now exists (Assign st1 :: Assign st2 :: before).
  - destruct (Hk _ _ _ _ Hrun) as (evs & Hcon & Hcalls & (_ & rest & Hpre) & Hend).
    exists (Assign st1 :: Assign st2 :: evs). simpl.
    split; [exact Hcon|]. split; [exact Hcalls|]. split.
    + exists (JObj (set k2 v2 (set k1 v1 props))), rest. now rewrite Hpre.
    + destruct o as [a|code|[c|stmt]]; simpl in *.
      * destruct Hend as [_ <-]. now exists (JObj (set k2 v2 (set k1 v1 props))).
      * exact Hend.
      * destruct Hend as [before ->]. now exists (Assign st1 :: Assign st2 :: before).
      * destruct Hend as [Hb [before ->]]. split; [exact Hb|].
        now exists (Assign st1 :: Assign st2 :: before).
Qed.

End StepFacts.

Section ActionSteps.
Context {W : Type} `{Env W}.
Implicit Types (s : State W).

Ltac steps_step :=
  eapply steps_bind;
  [ first [ apply steps_ret
          | apply steps_console_log
          | apply steps_mutate
          | apply steps_readJsonSync
          | apply steps_for_of_outputs ]
  | intros ? ].

(** With the target path free, a run makes the first steps of [script],
    however it ends. *)
Lemma action_events appName s o s' :
  let appPath := path_join (process_cwd (world s)) appName in
  action appName s = (o, s') ->
  fs_existsSync appPath (world s) = false ->
  exists evs,
    console s' = (console s ++ prints evs)%list
    /\ calls s' = (calls s ++ dos evs)%list
    /\ (exists d rest, script appName appPath d = (evs ++ rest)%list)
    /\ (exists evs0, evs = Do (ExistsSync appPath) :: evs0)
    /\ ends o evs (exists d, script appName appPath d = evs)
         (eq "packageJson.type = 'module'").
Proof.
  intros appPath Hrun Hfree. unfold action in Hrun.
  rewrite run_cwd in Hrun. cbv zeta in Hrun. rewrite run_existsSync in Hrun.
  fold appPath in Hrun. rewrite Hfree in Hrun.
  match type of Hrun with
  | ?m _ = _ =>
      assert (Hsteps : steps m (fun d => tl (script appName appPath d))
                         (eq "packageJson.type = 'module'"))
  end.
  { unfold mkdirSync, execSync, writeJsonSync.
    eapply steps_ext.
    - do 13 steps_step.
      eapply steps_assign_twice; [reflexivity|]. intros doc2.
      eapply steps_ext.
      + do 4 steps_step. apply steps_console_log.
      + intros d. cbv beta. reflexivity.
    - intros d. reflexivity. }
  destruct (Hsteps _ _ _ Hrun) as (evs0 & Hcon & Hcalls & (d & rest & Hpre) & Hend).
  clear Hsteps Hrun.
  assert (Hscript : forall d', script appName appPath d'
                    = Do (ExistsSync appPath) :: tl (script appName appPath d'))
    by reflexivity.
  unfold log_call in Hcon, Hcalls. cbn [console calls] in Hcon, Hcalls.
  exists (Do (ExistsSync appPath) :: evs0).
  split; [exact Hcon|].
  split; [rewrite Hcalls, <- app_assoc; reflexivity|].
  split; [exists d, rest; rewrite Hscript, Hpre; reflexivity|].
  split; [now exists evs0|].
  destruct o as [a|code|[c|stmt]]; unfold ends in *.
  - destruct Hend as [d' Hd']. exists d'. now rewrite Hscript, Hd'.
  - exact Hend.
  - destruct Hend as [before ->]. now exists (Do (ExistsSync appPath) :: before).
  - destruct Hend as [Hb [before ->]]. split; [exact Hb|].
    now exists (Do (ExistsSync appPath) :: before).
Qed.

End ActionSteps.

Section RunShape.
Context {W : Type} `{Env W}.
Implicit Types (s : State W).

Lemma calls_since_app s s' made :
  calls s' = (calls s ++ made)%list -> calls_since s s' = made.
Proof.
  intros Heq. unfold calls_since. rewrite Heq.
  now rewrite skipn_app, skipn_all, Nat.sub_diag, skipn_O.
Qed.

Lemma console_since_app s s' printed :
  console s' = (console s ++ printed)%list -> console_since s s' = printed.
Proof.
  intros Heq. unfold console_since. rewrite Heq.
  now rewrite skipn_app, skipn_all, Nat.sub_diag, skipn_O.
Qed.

Lemma dos_script appName appPath d :
  dos (script appName appPath d) = plan appPath d.
Proof. reflexivity. Qed.

Lemma prints_script appName appPath d :
  prints (script appName appPath d)
  = [ chalk green ("Creating project in " ++ appPath ++ "...")
    ; chalk blue "Initializing npm project..."
    ; chalk blue "Installing dependencies..."
    ; chalk blue "Setting up project structure..."
    ; chalk blue "Updating package.json..."
    ; chalk green "Project created successfully!"
    ; chalk blue "Run the following commands to get started:"
    ; chalk yellow ("cd " ++ appName)
    ; chalk yellow "npm run dev" ].
Proof. reflexivity. Qed.

Lemma plan_inside appPath d : Forall (inside appPath) (plan appPath d).
Proof.
  unfold plan, entries, Templates.files. cbn [map app fst snd].
  repeat apply List.Forall_cons; try apply List.Forall_nil; cbn [inside];
    first [ reflexivity
          | left; reflexivity
          | right; reflexivity
          | eexists; (split; [|reflexivity]); simpl; tauto ].
Qed.

(** The calls of any run are the first calls of the plan. *)
Lemma action_calls_prefix appName s o s' :
  let appPath := path_join (process_cwd (world s)) appName in
  action appName s = (o, s') ->
  exists d rest, plan appPath d = (calls_since s s' ++ rest)%list.
Proof.
  intros appPath Hrun.
  destruct (fs_existsSync appPath (world s)) eqn:Hfree.
  - rewrite (action_path_taken appName s Hfree) in Hrun.
    injection Hrun as _ <-. cbn [calls]. fold appPath.
    rewrite (calls_since_app s _ [ExistsSync appPath]) by reflexivity.
    exists JNull. eexists. reflexivity.
  - destruct (action_events appName s o s' Hrun Hfree)
      as (evs & _ & Hcalls & (d & rest & Hpre) & _).
    rewrite (calls_since_app _ _ _ Hcalls).
    exists d, (dos rest). fold appPath in Hpre.
    now rewrite <- dos_script with (appName := appName), Hpre, dos_app.
Qed.

End RunShape.

Lemma prefix_firstn {A} (l pre rest : list A) :
  l = (pre ++ rest)%list -> pre = firstn (length pre) l.
Proof. intros ->. now rewrite firstn_app, Nat.sub_diag, firstn_all, app_nil_r. Qed.

Section RunProperties.
Context {W : Type} `{Env W}.
Implicit Types (s : State W).


(** X2. With the target path free, and however the run ends, what it
    printed and the calls it made are those of an initial segment of the
    script, in the script's order; the run returns exactly when the
    segment is the whole script. *)
Theorem run_is_initial_segment_of_script appName s o s' :
  let appPath := path_join (process_cwd (world s)) appName in
  action appName s = (o, s') ->
  fs_existsSync appPath (world s) = false ->
  exists d evs rest,
    script appName appPath d = (evs ++ rest)%list
    /\ console_since s s' = prints evs
    /\ calls_since s s' = dos evs
    /\ (o = Returned tt <-> rest = []).
Proof.
  intros appPath Hrun Hfree.
  destruct (action_events appName s o s' Hrun Hfree)
    as (evs & Hcon & Hcalls & (d & rest & Hpre) & _ & Hend).
  fold appPath in Hpre, Hend.
  exists d, evs, rest. split; [exact Hpre|].
  split; [now apply console_since_app|]. split; [now apply calls_since_app|].
  assert (Hlen : forall d', length (script appName appPath d') = 24) by reflexivity.
  split.
  - intros ->. destruct Hend as [d' Hd'].
    pose proof (Hlen d) as Hl. rewrite Hpre, length_app, <- Hd', Hlen in Hl.
    destruct rest; [reflexivity | simpl in Hl; lia].
  - intros ->. rewrite app_nil_r in Hpre.
    assert (Hlast : List.last (script appName appPath d) (Assign EmptyString)
                    = Print (chalk yellow "npm run dev")) by reflexivity.
    rewrite Hpre in Hlast.
    destruct o as [[]|code|[c|stmt]]; unfold ends in Hend.
    + reflexivity.
    + contradiction.
    + destruct Hend as [before ->]. rewrite List.last_last in Hlast. discriminate Hlast.
    + destruct Hend as [_ [before ->]]. rewrite List.last_last in Hlast.
      discriminate Hlast.
Qed.

(** X3. Whatever the world and however the run ends, every call the
    action makes stays in the application directory. *)
Theorem every_call_stays_in_the_app_directory appName s o s' :
  action appName s = (o, s') ->
  Forall (inside (path_join (process_cwd (world s)) appName)) (calls_since s s').
Proof.
  intros Hrun.
  destruct (action_calls_prefix appName s o s' Hrun) as (d & rest & Hplan).
  pose proof (plan_inside (path_join (process_cwd (world s)) appName) d) as Hin.
  rewrite Hplan in Hin. now apply List.Forall_app in Hin.
Qed.

(** X4. When a collaborator throws, its call is the last one the action
    made, and the calls before it are those the plan has before it:
    nothing is retried, undone or skipped. *)
Theorem thrown_call_is_the_last_call appName s c s' :
  let appPath := path_join (process_cwd (world s)) appName in
  action appName s = (Threw (Raised c), s') ->
  exists before d rest,
    calls_since s s' = (before ++ [c])%list
    /\ plan appPath d = (before ++ c :: rest)%list.
Proof.
  intros appPath Hrun.
  destruct (fs_existsSync appPath (world s)) eqn:Hfree.
  { rewrite (action_path_taken appName s Hfree) in Hrun. discriminate Hrun. }
  destruct (action_events appName s _ s' Hrun Hfree)
    as (evs & _ & Hcalls & (d & rest & Hpre) & _ & (before & ->)).
  fold appPath in Hpre.
  exists (dos before), d, (dos rest). split.
  - rewrite (calls_since_app _ _ _ Hcalls). now rewrite dos_app.
  - rewrite <- dos_script with (appName := appName), Hpre, !dos_app.
    now rewrite <- app_assoc.
Qed.

End RunProperties.

Section RunOrder.
Context {W : Type} `{Env W}.
Implicit Types (s : State W).

(** X5. Whatever way the run ends: a file has been handed to
    [outputFileSync] only after the directory was made and the three npm
    commands and the [src] directory call were made, in this order; and
    the manifest has been written only after all five files were handed
    over and the manifest was read. *)
Theorem files_after_npm_and_manifest_after_files appName s o s' :
  let appPath := path_join (process_cwd (world s)) appName in
  action appName s = (o, s') ->
  (existsb is_output (calls_since s s') = true ->
   exists rest,
     calls_since s s'
     = ([ ExistsSync appPath
        ; MkdirSync appPath false
        ; ExecSync "npm init -y" appPath
        ; ExecSync "npm install react react-dom express" appPath
        ; ExecSync "npm install --save-dev vite @vitejs/plugin-react" appPath
        ; MkdirSync (path_join appPath "src") true ] ++ rest)%list)
  /\ (existsb is_manifest_write (calls_since s s') = true ->
      written (calls_since s s') = map snd entries
      /\ In (ReadJsonSync (path_join appPath "package.json")) (calls_since s s')).
Proof.
  intros appPath Hrun.
  destruct (action_calls_prefix appName s o s' Hrun) as (d & rest & Hplan).
  fold appPath in Hplan. apply prefix_firstn in Hplan.
  revert Hplan. generalize (length (calls_since s s')) as n.
  generalize (calls_since s s') as made. intros made n ->.
  do 13 (destruct n as [|n];
         [split; intros Hsome; vm_compute in Hsome; try discriminate Hsome;
          eexists; reflexivity|]).
  destruct n as [|n]; (split; intros _; [eexists; reflexivity|]);
    (split; [reflexivity|]); simpl; tauto.
Qed.

(** X6. The line [Project created successfully!] is printed by the runs
    that return, and by no other. *)
Theorem success_line_only_when_returned appName s o s' :
  action appName s = (o, s') ->
  (In (chalk green "Project created successfully!") (console_since s s')
   <-> o = Returned tt).
Proof.
  intros Hrun. set (appPath := path_join (process_cwd (world s)) appName).
  destruct (fs_existsSync appPath (world s)) eqn:Hfree.
  { rewrite (action_path_taken appName s Hfree) in Hrun.
    injection Hrun as <- <-.
    rewrite (console_since_app s _ [chalk red ("Directory " ++ appName ++ " already exists.")])
      by reflexivity.
    split; [|discriminate]. intros [Hin|[]]. discriminate Hin. }
  destruct (action_events appName s o s' Hrun Hfree)
    as (evs & Hcon & _ & (d & rest & Hpre) & _ & Hend).
  fold appPath in Hpre, Hend. rewrite (console_since_app _ _ _ Hcon).
  split.
  - intros Hin. apply prefix_firstn in Hpre.
    assert (Hlast : forall x before,
              evs = (before ++ [x])%list ->
              List.last evs (Print (chalk red EmptyString)) = x)
      by (intros x before ->; apply List.last_last).
    revert Hpre Hin Hlast Hend. generalize (length evs) as n. intros n -> Hin Hlast Hend.
    do 21 (destruct n as [|n];
           [vm_compute in Hin;
            repeat (destruct Hin as [Hin|Hin]; try discriminate Hin);
            contradiction|]).
    destruct o as [[]|code|[c|stmt]]; unfold ends in Hend.
    + reflexivity.
    + contradiction.
    + destruct Hend as [before Hev]. apply Hlast in Hev.
      do 4 (destruct n as [|n]; [vm_compute in Hev; discriminate Hev|]).
      vm_compute in Hev; discriminate Hev.
    + destruct Hend as [_ [before Hev]]. apply Hlast in Hev.
      do 4 (destruct n as [|n]; [vm_compute in Hev; discriminate Hev|]).
      vm_compute in Hev; discriminate Hev.
  - intros ->. destruct Hend as [d' <-]. rewrite prints_script. simpl. tauto.
Qed.

(** X7. A [TypeError] can only come from the assignment of [type],
    never from that of [scripts].  By then every call of the plan but the
    write has been made: the five files were handed over, the manifest
    was read, and it is not written. *)
Theorem type_error_only_at_the_type_assignment appName s stmt s' :
  let appPath := path_join (process_cwd (world s)) appName in
  action appName s = (Threw (TypeError stmt), s') ->
  stmt = "packageJson.type = 'module'"
  /\ (forall doc,
        plan appPath doc
        = (calls_since s s'
           ++ [WriteJsonSync (path_join appPath "package.json") doc 2])%list)
  /\ written (calls_since s s') = map snd entries.
Proof.
  intros appPath Hrun.
  destruct (fs_existsSync appPath (world s)) eqn:Hfree.
  { rewrite (action_path_taken appName s Hfree) in Hrun. discriminate Hrun. }
  destruct (action_events appName s _ s' Hrun Hfree)
    as (evs & _ & Hcalls & (d & rest & Hpre) & _ & (<- & (before & Hev))).
  fold appPath in Hpre. rewrite (calls_since_app _ _ _ Hcalls).
  split; [reflexivity|].
  apply prefix_firstn in Hpre.
  apply (f_equal (fun l => List.last l (Print (chalk red EmptyString)))) in Hev.
  rewrite List.last_last in Hev.
  revert Hpre Hev. generalize (length evs) as n. intros n -> Hev.
  do 18 (destruct n as [|n]; [vm_compute in Hev; discriminate Hev|]).
  destruct n as [|n]; [split; [intros doc|]; reflexivity|].
  do 6 (destruct n as [|n]; [vm_compute in Hev; discriminate Hev|]).
  vm_compute in Hev; discriminate Hev.
Qed.

End RunOrder.

(* ================================================================== *)
(** ** Where the patched keys land *)
(* ================================================================== *)

Section KeyFacts.
Implicit Types (k : string) (v : JValue) (o m : JObject).

Lemma keys_set_get k v o :
  keys (set k v o)
  = (keys o ++ match get k o with Some _ => [] | None => [k] end)%list.
Proof.
  unfold keys. induction o as [|[k' v'] o IH]; simpl; [reflexivity|].
  destruct (String.eqb_spec k' k) as [->|Hne]; simpl.
  - now rewrite app_nil_r.
  - now rewrite IH.
Qed.

Lemma get_None_iff k o : get k o = None <-> ~ In k (keys o).
Proof.
  unfold keys. induction o as [|[k' v'] o IH]; simpl; [tauto|].
  destruct (String.eqb_spec k' k) as [->|Hne].
  - split; [discriminate | tauto].
  - rewrite IH. tauto.
Qed.

Lemma NoDup_keys_set k v o :
  List.NoDup (keys o) -> List.NoDup (keys (set k v o)).
Proof.
  intros Hnd. rewrite keys_set_get.
  destruct (get k o) eqn:Hget; [now rewrite app_nil_r|].
  apply get_None_iff in Hget.
  apply List.NoDup_app; [exact Hnd| |].
  - apply List.NoDup_cons; [simpl; tauto | apply List.NoDup_nil].
  - intros x Hx [<-|[]]. contradiction.
Qed.

End KeyFacts.

(** X8. Step 4 keeps every key of the manifest in its place, [type] and
    [scripts] included when they are there; a missing [type] is added
    after the last key and a missing [scripts] after that. *)
Theorem patched_keys_keep_their_place (m : JObject) :
  keys (update_packageJson m)
  = (keys m
     ++ match get "type" m with Some _ => [] | None => ["type"] end
     ++ match get "scripts" m with Some _ => [] | None => ["scripts"] end)%list.
Proof.
  unfold update_packageJson. rewrite !keys_set_get, <- app_assoc.
  now rewrite get_set_ne by discriminate.
Qed.

(** X9. Step 4 keeps the keys of the manifest unique. *)
Theorem patched_keys_stay_unique (m : JObject) :
  List.NoDup (keys m) -> List.NoDup (keys (update_packageJson m)).
Proof.
  intros Hnd. unfold update_packageJson. now do 2 apply NoDup_keys_set.
Qed.

Lemma patched_keys_stay_unique_witness :
  List.NoDup (keys (update_packageJson (MemFs.npm_init_manifest "/home/u/demo"))).
Proof.
  apply patched_keys_stay_unique.
  repeat (apply List.NoDup_cons; [simpl; intuition discriminate|]).
  apply List.NoDup_nil.
Defined.

(* ================================================================== *)
(** ** Trimmed contents *)
(* ================================================================== *)

Section TrimFacts.
Implicit Types (s : string) (c ch : ascii).

Lemma trimStart_head s c r : trimStart s = String c r -> is_space c = false.
Proof.
  induction s as [|a s IH]; simpl; [discriminate|].
  destruct (is_space a) eqn:Ha; [exact IH|].
  intros Heq. injection Heq as <- _. exact Ha.
Qed.

Lemma trimStart_fixed c r : is_space c = false -> trimStart (String c r) = String c r.
Proof. intros Hc. simpl. now rewrite Hc. Qed.

Lemma trimEnd_head c r :
  is_space c = false -> exists r', trimEnd (String c r) = String c r'.
Proof.
  intros Hc. simpl. destruct (trimEnd r); [rewrite Hc|]; eauto.
Qed.

Lemma trimEnd_idempotent s : trimEnd (trimEnd s) = trimEnd s.
Proof.
  induction s as [|c s IH]; [reflexivity|]. simpl.
  destruct (trimEnd s) as [|a t] eqn:Ht.
  - destruct (is_space c) eqn:Hc; [reflexivity|]. simpl. now rewrite Hc.
  - change (trimEnd (String c (String a t))) with
      (match trimEnd (String a t) with
       | EmptyString => if is_space c then EmptyString else String c EmptyString
       | t' => String c t'
       end).
    now rewrite IH.
Qed.

Lemma trimEnd_last s ch :
  String.get (String.length (trimEnd s) - 1) (trimEnd s) = Some ch ->
  is_space ch = false.
Proof.
  induction s as [|c s IH]; simpl; [discriminate|].
  destruct (trimEnd s) as [|a t] eqn:Ht.
  - destruct (is_space c) eqn:Hc; simpl; [discriminate|].
    intros Heq. injection Heq as <-. exact Hc.
  - simpl in IH |- *.
    replace (String.length t - 0) with (String.length t) in IH by lia.
    exact IH.
Qed.

Lemma trim_idempotent s : trim (trim s) = trim s.
Proof.
  unfold trim. destruct (trimStart s) as [|c r] eqn:Hs; [reflexivity|].
  pose proof (trimStart_head _ _ _ Hs) as Hc.
  destruct (trimEnd_head c r Hc) as [r' Hr']. rewrite Hr'.
  rewrite (trimStart_fixed c r' Hc), <- Hr'. apply trimEnd_idempotent.
Qed.

Lemma trim_ends_not_space s ch :
  String.get 0 (trim s) = Some ch
  \/ String.get (String.length (trim s) - 1) (trim s) = Some ch ->
  is_space ch = false.
Proof.
  unfold trim. intros [Hfirst|Hlast].
  - destruct (trimStart s) as [|c r] eqn:Hs; [discriminate Hfirst|].
    pose proof (trimStart_head _ _ _ Hs) as Hc.
    destruct (trimEnd_head c r Hc) as [r' Hr']. rewrite Hr' in Hfirst.
    simpl in Hfirst. injection Hfirst as <-. exact Hc.
  - exact (trimEnd_last _ _ Hlast).
Qed.

End TrimFacts.

(** X10. Whatever way the run ends, every content handed to
    [outputFileSync] is trimmed: trimming it again changes nothing, and
    neither its first nor its last character is white space, although
    each template starts with a line feed and ends with indentation. *)
Theorem written_contents_are_trimmed {W : Type} `{Env W}
    (appName : string) (s : State W) (o : Outcome unit) (s' : State W) :
  action appName s = (o, s') ->
  Forall (fun content =>
            trim content = content
            /\ forall ch,
                 String.get 0 content = Some ch
                 \/ String.get (String.length content - 1) content = Some ch ->
                 is_space ch = false)
    (written (calls_since s s')).
Proof.
  intros Hrun.
  destruct (action_calls_prefix appName s o s' Hrun) as (d & rest & Hplan).
  apply (f_equal written) in Hplan. rewrite written_app in Hplan.
  assert (Hall : written (plan (path_join (process_cwd (world s)) appName) d)
                 = map trim (map snd Templates.files)) by reflexivity.
  rewrite Hall in Hplan.
  assert (Htrimmed : Forall (fun content =>
            trim content = content
            /\ forall ch,
                 String.get 0 content = Some ch
                 \/ String.get (String.length content - 1) content = Some ch ->
                 is_space ch = false) (map trim (map snd Templates.files))).
  { apply List.Forall_map. apply List.Forall_forall. intros x _. split.
    - apply trim_idempotent.
    - apply trim_ends_not_space. }
  rewrite Hplan in Htrimmed. now apply List.Forall_app in Htrimmed.
Qed.

(* ================================================================== *)
(** ** Runs in the in-memory worlds *)
(* ================================================================== *)


Lemma run_is_initial_segment_witness :
  let s0 := Faulty.start Faulty.disk_full in
  let r := action "demo" s0 in
  exists d evs rest,
    script "demo" "/home/u/demo" d = (evs ++ rest)%list
    /\ console_since s0 (snd r) = prints evs
    /\ calls_since s0 (snd r) = dos evs
    /\ (fst r = Returned tt <-> rest = []).
Proof.
  exact (run_is_initial_segment_of_script "demo" (Faulty.start Faulty.disk_full)
           (fst (action "demo" (Faulty.start Faulty.disk_full)))
           (snd (action "demo" (Faulty.start Faulty.disk_full)))
           (surjective_pairing _) eq_refl).
Defined.

Lemma every_call_stays_witness :
  let s0 := Faulty.start Faulty.disk_full in
  Forall (inside "/home/u/demo") (calls_since s0 (snd (action "demo" s0))).
Proof.
  exact (every_call_stays_in_the_app_directory "demo" (Faulty.start Faulty.disk_full)
           (fst (action "demo" (Faulty.start Faulty.disk_full)))
           (snd (action "demo" (Faulty.start Faulty.disk_full)))
           (surjective_pairing _)).
Defined.

Lemma thrown_call_is_last_witness :
  let s0 := Faulty.start Faulty.offline in
  exists before d rest,
    calls_since s0 (snd (action "demo" s0))
    = (before ++ [ExecSync "npm install react react-dom express" "/home/u/demo"])%list
    /\ plan "/home/u/demo" d
       = (before ++ ExecSync "npm install react react-dom express" "/home/u/demo"
                    :: rest)%list.
Proof.
  assert (Hrun : action "demo" (Faulty.start Faulty.offline)
                 = (Threw (Raised (ExecSync "npm install react react-dom express"
                                     "/home/u/demo")),
                    snd (action "demo" (Faulty.start Faulty.offline))))
    by (vm_compute; reflexivity).
  exact (thrown_call_is_the_last_call "demo" _ _ _ Hrun).
Defined.

Lemma files_after_npm_witness :
  let s0 := MemFs.start MemFs.fresh in
  let s1 := snd (action "demo" s0) in
  (exists rest,
     calls_since s0 s1
     = ([ ExistsSync "/home/u/demo"
        ; MkdirSync "/home/u/demo" false
        ; ExecSync "npm init -y" "/home/u/demo"
        ; ExecSync "npm install react react-dom express" "/home/u/demo"
        ; ExecSync "npm install --save-dev vite @vitejs/plugin-react" "/home/u/demo"
        ; MkdirSync "/home/u/demo/src" true ] ++ rest)%list)
  /\ written (calls_since s0 s1) = map snd entries
  /\ In (ReadJsonSync "/home/u/demo/package.json") (calls_since s0 s1).
Proof.
  destruct (files_after_npm_and_manifest_after_files "demo" (MemFs.start MemFs.fresh)
              (fst (action "demo" (MemFs.start MemFs.fresh)))
              (snd (action "demo" (MemFs.start MemFs.fresh)))
              (surjective_pairing _)) as [Hfiles Hmanifest].
  split.
  - apply Hfiles. vm_compute. reflexivity.
  - apply Hmanifest. vm_compute. reflexivity.
Defined.

Lemma success_line_witness :
  let s0 := MemFs.start MemFs.fresh in
  In (chalk green "Project created successfully!")
    (console_since s0 (snd (action "demo" s0))).
Proof.
  assert (Hrun : action "demo" (MemFs.start MemFs.fresh)
                 = (Returned tt, snd (action "demo" (MemFs.start MemFs.fresh))))
    by (vm_compute; reflexivity).
  exact (proj2 (success_line_only_when_returned "demo" _ _ _ Hrun) eq_refl).
Defined.

Lemma type_error_witness :
  let s0 := Faulty.start Faulty.null_manifest in
  let s1 := snd (action "demo" s0) in
  "packageJson.type = 'module'" = "packageJson.type = 'module'"
  /\ (forall doc,
        plan "/home/u/demo" doc
        = (calls_since s0 s1 ++ [WriteJsonSync "/home/u/demo/package.json" doc 2])%list)
  /\ written (calls_since s0 s1) = map snd entries.
Proof.
  assert (Hrun : action "demo" (Faulty.start Faulty.null_manifest)
                 = (Threw (TypeError "packageJson.type = 'module'"),
                    snd (action "demo" (Faulty.start Faulty.null_manifest))))
    by (vm_compute; reflexivity).
  exact (type_error_only_at_the_type_assignment "demo" _ _ _ Hrun).
Defined.

Lemma written_contents_witness :
  let s0 := Faulty.start Faulty.disk_full in
  Forall (fun content =>
            trim content = content
            /\ forall ch,
                 String.get 0 content = Some ch
                 \/ String.get (String.length content - 1) content = Some ch ->
                 is_space ch = false)
    (written (calls_since s0 (snd (action "demo" s0)))).
Proof.
  exact (written_contents_are_trimmed "demo" (Faulty.start Faulty.disk_full)
           (fst (action "demo" (Faulty.start Faulty.disk_full)))
           (snd (action "demo" (Faulty.start Faulty.disk_full)))
           (surjective_pairing _)).
Defined.

(** The three failing worlds end as expected. *)
Example failing_runs :
  fst (action "demo" (Faulty.start Faulty.offline))
  = Threw (Raised (ExecSync "npm install react react-dom express" "/home/u/demo"))
  /\ fst (action "demo" (Faulty.start Faulty.null_manifest))
     = Threw (TypeError "packageJson.type = 'module'")
  /\ fst (action "demo" (Faulty.start Faulty.disk_full))
     = Threw (Raised (OutputFileSync "/home/u/demo/index.html" (trim Templates.index_html))).
Proof. vm_compute. split; [|split]; reflexivity. Qed.
